(** * grit-cli launcher: the pip wrapper around the grit binaries

    A shallow embedding of [packaging/pip/grit_cli/__init__.py] and the
    properties of its platform resolution, cache layout, install pipeline
    and process hand-over. *)

From Stdlib Require Import ZArith Ascii String.
From stdpp Require Import gmap strings list fin_maps.

Local Open Scope string_scope.
Local Open Scope list_scope.

(** ** Python values the module relies on *)

(** [str.lower] on the ASCII range: the letters A..Z are shifted to a..z,
    every other code unit is kept.  (Outside ASCII no character lowers to
    one of the letters of the architecture table, so table lookups agree.) *)
Definition lower_ascii (c : ascii) : ascii :=
  let n := nat_of_ascii c in
  if (65 <=? n)%nat && (n <=? 90)%nat then ascii_of_nat (n + 32) else c.

Fixpoint lower (s : string) : string :=
  match s with
  | EmptyString => EmptyString
  | String c r => String (lower_ascii c) (lower r)
  end.

(** [str.startswith]. *)
Fixpoint startswith (pre s : string) : bool :=
  match pre, s with
  | EmptyString, _ => true
  | String a p, String b r => bool_decide (a = b) && startswith p r
  | String _ _, EmptyString => false
  end.

(** Truth value of the result of [dict.get]: [None] and the empty string
    are both false. *)
Definition truthy (o : option string) : bool :=
  match o with
  | Some s => negb (bool_decide (s = ""))
  | None => false
  end.

(** The exceptions the module raises itself or lets through from the
    standard library calls it makes. *)
Inductive exception :=
| RuntimeError (msg : string)
| URLError (url : string)
| ReadError
| FileNotFoundError (p : list string)
| FileExistsError (p : list string)
| NotADirectoryError (p : list string)
| IsADirectoryError (p : list string).

(** The Python class name of an exception. *)
Definition class_name (e : exception) : string :=
  match e with
  | RuntimeError _ => "RuntimeError"
  | URLError _ => "URLError"
  | ReadError => "ReadError"
  | FileNotFoundError _ => "FileNotFoundError"
  | FileExistsError _ => "FileExistsError"
  | NotADirectoryError _ => "NotADirectoryError"
  | IsADirectoryError _ => "IsADirectoryError"
  end.

Inductive result (A : Type) :=
| OK (a : A)
| Raise (e : exception).
Arguments OK {A} a.
Arguments Raise {A} e.

(** ** Module constants *)

Definition __version__ : string := "0.1.0".
Definition REPO : string := "neul-labs/grit".

(** ** get_platform *)

Definition system_map (system : string) : option string :=
  if bool_decide (system = "Darwin") then Some "apple-darwin"
  else if bool_decide (system = "Linux") then Some "unknown-linux-gnu"
  else if bool_decide (system = "Windows") then Some "pc-windows-msvc"
  else None.

Definition arch_map (machine : string) : option string :=
  if bool_decide (machine = "x86_64") then Some "x86_64"
  else if bool_decide (machine = "amd64") then Some "x86_64"
  else if bool_decide (machine = "aarch64") then Some "aarch64"
  else if bool_decide (machine = "arm64") then Some "aarch64"
  else None.

(** [plat_system] and [plat_machine] stand for the values returned by
    [platform.system()] and [platform.machine()]. *)
Definition get_platform (plat_system plat_machine : string) : result string :=
  let system := plat_system in
  let machine := lower plat_machine in
  let mapped_system := system_map system in
  let mapped_arch := arch_map machine in
  if negb (truthy mapped_system) || negb (truthy mapped_arch) then
    Raise (RuntimeError ("Unsupported platform: " +:+ system +:+ "-" +:+ machine))
  else if bool_decide (system = "Darwin") then
    OK "universal-apple-darwin"
  else
    OK (default "" mapped_arch +:+ "-" +:+ default "" mapped_system).


(** ** The host: everything the module reads from its surroundings *)

(** A path is the list of its components, outermost first; [p </> c] is
    pathlib's [p / c] for a single component [c].  The operands of [/] in
    the module are literals, the version, the archive name and the binary
    name; the binary name is the one operand a caller chooses, and the
    model covers the names that are one component (see [plain_component]
    and [posix_truediv] below for the others). *)
Abbreviation path := (list string).

Definition joinpath (p : path) (c : string) : path := p ++ [c].
Infix "</>" := joinpath (at level 40, left associativity).

Inductive node :=
| File (data : string) (mode : Z)
| Dir.

#[global] Instance node_eq_dec : EqDecision node.
Proof. solve_decision. Defined.

(** What an [extractall] call does with an archive body: the members it
    writes, as paths relative to the extraction directory and in archive
    order, and whether it ran to the end ([false]: it raised after writing
    the members listed). *)
Record extraction := {
  members : list (path * node);
  complete : bool;
}.

Record host := {
  platform_system : string;          (* platform.system() *)
  platform_machine : string;         (* platform.machine() *)
  environ : gmap string string;      (* os.environ *)
  home : path;                       (* Path.home() *)
  Path : string -> path;             (* Path(s) for a string s *)
  str : path -> string;              (* str(p) *)
  argv : list string;                (* sys.argv *)
  mkdtemp : path;                    (* the directory tempfile creates *)
  (* the network: [None] when the request fails before any byte is stored,
     otherwise the bytes stored and whether the transfer was complete *)
  http_get : string -> option (string * bool);
  tar_extractall : string -> extraction;
  zip_extractall : string -> extraction;
}.

(** ** The world the module acts on *)

Record world := {
  fs : gmap path node;       (* the file system *)
  stdout : list string;      (* lines printed, oldest first *)
  fetched : list string;     (* URLs requested, oldest first *)
}.

Definition set_fs (f : gmap path node -> gmap path node) (w : world) : world :=
  {| fs := f (fs w); stdout := stdout w; fetched := fetched w |}.

(** State and exception monad: a raised exception keeps the effects that
    happened before it. *)
Definition M (A : Type) : Type := world -> result A * world.

Definition ret {A} (a : A) : M A := fun w => (OK a, w).
Definition raise {A} (e : exception) : M A := fun w => (Raise e, w).
Definition bind {A B} (c : M A) (k : A -> M B) : M B :=
  fun w => match c w with
           | (OK a, w') => k a w'
           | (Raise e, w') => (Raise e, w')
           end.
Definition lift {A} (r : result A) : M A := fun w => (r, w).
Definition gets {A} (f : gmap path node -> A) : M A := fun w => (OK (f (fs w)), w).

Notation "x <- c ;; k" := (bind c (fun x => k))
  (at level 20, c at level 99, k at level 200, only parsing).
Notation "c ;; k" := (bind c (fun _ => k))
  (at level 100, k at level 200, right associativity, only parsing).

(** [for x in xs: body(x)] *)
Fixpoint for_each {A} (xs : list A) (body : A -> M unit) : M unit :=
  match xs with
  | [] => ret tt
  | x :: r => body x ;; for_each r body
  end.

Definition print (line : string) : M unit :=
  fun w => (OK tt, {| fs := fs w; stdout := stdout w ++ [line]; fetched := fetched w |}).

(** *** File system primitives *)

(** The non-empty prefixes of a path, shortest first, the path itself last. *)
Fixpoint prefixes (p : path) : list path :=
  match p with
  | [] => []
  | c :: r => [c] :: map (cons c) (prefixes r)
  end.

Definition parent (p : path) : path := removelast p.
Definition name (p : path) : string := default "" (last p).
Definition ancestors (p : path) : list path := removelast (prefixes p).

Definition is_dir_at (m : gmap path node) (p : path) : bool :=
  bool_decide (m !! p = Some Dir).

(** Path resolution: a path names a node only when every directory on the
    way to it is a directory. *)
Definition stat (m : gmap path node) (p : path) : option node :=
  match p with
  | [] => Some Dir
  | _ => if forallb (is_dir_at m) (ancestors p) then m !! p else None
  end.

Definition path_exists (m : gmap path node) (p : path) : bool :=
  bool_decide (is_Some (stat m p)).

Definition is_dir (m : gmap path node) (p : path) : bool :=
  bool_decide (stat m p = Some Dir).

(** [Path.iterdir]: the entries directly inside [d], in listing order. *)
Definition iterdir (m : gmap path node) (d : path) : list path :=
  filter (fun p => p <> [] /\ parent p = d) (map_to_list m).*1.

(** [Path.mkdir(parents=True, exist_ok=True)]: every missing directory on
    the way is created; a directory that is already there is accepted; a
    file in the way raises ([FileExistsError] at the path itself,
    [NotADirectoryError] above it). *)
Definition mkdir_step (p : path) (acc : result (gmap path node)) (q : path)
  : result (gmap path node) :=
  match acc with
  | Raise e => Raise e
  | OK m =>
      match m !! q with
      | Some Dir => OK m
      | Some (File _ _) =>
          Raise (if bool_decide (q = p) then FileExistsError p
                 else NotADirectoryError p)
      | None => OK (<[q := Dir]> m)
      end
  end.

Definition mkdir_parents (m : gmap path node) (p : path) : result (gmap path node) :=
  foldl (mkdir_step p) (OK m) (prefixes p).

Definition mkdir (p : path) : M unit :=
  fun w => match mkdir_parents (fs w) p with
           | OK m => (OK tt, set_fs (fun _ => m) w)
           | Raise e => (Raise e, w)
           end.

(** [shutil.rmtree]: the directory and everything below it disappear. *)
Definition rmtree (d : path) (m : gmap path node) : gmap path node :=
  filter (fun kv => ¬ (d `prefix_of` kv.1)) m.

(** [with tempfile.TemporaryDirectory() as temp_dir: body]: the directory
    is created, the body runs, and the directory is removed however the
    body ends. *)
Definition with_TemporaryDirectory {A} (h : host) (body : path -> M A) : M A :=
  fun w =>
    let temp_dir := mkdtemp h in
    let '(r, w') := body temp_dir (set_fs <[temp_dir := Dir]> w) in
    (r, set_fs (rmtree temp_dir) w').

(** [urllib.request.urlretrieve(url, filename)] *)
Definition urlretrieve (h : host) (url : string) (filename : path) : M unit :=
  fun w =>
    let w1 := {| fs := fs w; stdout := stdout w; fetched := fetched w ++ [url] |} in
    match http_get h url with
    | None => (Raise (URLError url), w1)
    | Some (body, whole) =>
        let w2 := set_fs <[filename := File body 420]> w1 in
        if whole then (OK tt, w2) else (Raise (URLError url), w2)
    end.

(** Writing one archive member below [d]: the directories leading to it
    are created when missing, then the member itself is stored. *)
Definition write_member (d : path) (m : gmap path node) (e : path * node)
  : gmap path node :=
  match e.1 with
  | [] => m
  | rel =>
      let made := foldl (fun m q => match m !! q with
                                    | None => <[q := Dir]> m
                                    | Some _ => m
                                    end)
                        m (map (app d) (ancestors rel)) in
      <[d ++ rel := e.2]> made
  end.

(** [tarfile.open(archive).extractall(d)] and
    [zipfile.ZipFile(archive).extractall(d)], by the unpacker given; a
    damaged archive of either kind is reported as [ReadError]. *)
Definition extractall (unpack : string -> extraction) (archive d : path) : M unit :=
  fun w =>
    match stat (fs w) archive with
    | Some (File body _) =>
        let x := unpack body in
        let w' := set_fs (fun m => foldl (write_member d) m (members x)) w in
        if complete x then (OK tt, w') else (Raise ReadError, w')
    | Some Dir => (Raise (IsADirectoryError archive), w)
    | None => (Raise (FileNotFoundError archive), w)
    end.

(** [shutil.copy2(src, dst)]: content and permission bits of [src] are
    stored at [dst], or inside [dst] under the name of [src] when [dst] is a
    directory.  (The sources copied here live in the temporary directory,
    so the same-file refusal of [shutil] never applies and is left out.) *)
Definition copy2 (src dst : path) : M unit :=
  fun w =>
    match stat (fs w) src with
    | None => (Raise (FileNotFoundError src), w)
    | Some Dir => (Raise (IsADirectoryError src), w)
    | Some (File data mode) =>
        let target := if is_dir (fs w) dst then dst </> name src else dst in
        if is_dir (fs w) target then (Raise (IsADirectoryError target), w)
        else if is_dir (fs w) (parent target)
        then (OK tt, set_fs <[target := File data mode]> w)
        else (Raise (FileNotFoundError target), w)
    end.

Definition S_IXUSR : Z := 64.
Definition S_IXGRP : Z := 8.
Definition S_IXOTH : Z := 1.

(** [p.chmod(p.stat().st_mode | bits)]; the permission bits of directories
    are not tracked. *)
Definition chmod_or (p : path) (bits : Z) : M unit :=
  fun w =>
    match stat (fs w) p with
    | None => (Raise (FileNotFoundError p), w)
    | Some Dir => (OK tt, w)
    | Some (File data mode) =>
        (OK tt, set_fs <[p := File data (Z.lor mode bits)]> w)
    end.

(** ** The module's functions *)

Definition environ_get (h : host) (key : string) (fallback : path) : path :=
  match environ h !! key with
  | Some v => Path h v
  | None => fallback
  end.

(** The [base] chosen by [get_cache_dir]. *)
Definition cache_base (h : host) : path :=
  if bool_decide (platform_system h = "Windows") then
    environ_get h "LOCALAPPDATA" (home h </> "AppData" </> "Local")
  else if bool_decide (platform_system h = "Darwin") then
    home h </> "Library" </> "Caches"
  else
    environ_get h "XDG_CACHE_HOME" (home h </> ".cache").

Definition get_cache_dir (h : host) : M path :=
  let base := cache_base h in
  let cache_dir := base </> "grit-cli" in
  mkdir cache_dir ;;
  ret cache_dir.

Definition get_archive_ext (h : host) : string :=
  if bool_decide (platform_system h = "Windows") then ".zip" else ".tar.gz".

Definition get_binary_name (h : host) (name : string) : string :=
  if bool_decide (platform_system h = "Windows") then name +:+ ".exe" else name.

(** The list built at "Find extracted directory". *)
Definition extracted_dirs (m : gmap path node) (temp_path : path) : list path :=
  filter (fun d => is_dir m d = true /\ startswith "grit-" (name d) = true)
         (iterdir m temp_path).

(** The body of the loop at "Copy binaries". *)
Definition copy_one (h : host) (src_dir dest_dir : path) (binary : string) : M unit :=
  let src := src_dir </> get_binary_name h binary in
  let dst := dest_dir </> get_binary_name h binary in
  copy2 src dst ;;
  (* Make executable on Unix *)
  if negb (bool_decide (platform_system h = "Windows")) then
    chmod_or dst (Z.lor (Z.lor S_IXUSR S_IXGRP) S_IXOTH)
  else ret tt.

Definition copy_binaries (h : host) (src_dir dest_dir : path) : M unit :=
  for_each ["grit"; "grit-daemon"] (copy_one h src_dir dest_dir).

Definition archive_name_of (plat ext : string) : string :=
  "grit-" +:+ __version__ +:+ "-" +:+ plat +:+ ext.

Definition url_of (archive_name : string) : string :=
  "https://github.com/" +:+ REPO +:+ "/releases/download/v" +:+ __version__
    +:+ "/" +:+ archive_name.

(** The [with] block of [download_binary], first half: "Download" and
    "Extract". *)
Definition fetch_and_extract (h : host) (ext archive_name url : string)
    (temp_path : path) : M unit :=
  let archive_path := temp_path </> archive_name in
  (* Download *)
  urlretrieve h url archive_path ;;
  (* Extract *)
  if bool_decide (ext = ".tar.gz")
  then extractall (tar_extractall h) archive_path temp_path
  else extractall (zip_extractall h) archive_path temp_path.

(** Second half: "Find extracted directory", "Create destination
    directory" and "Copy binaries". *)
Definition install (h : host) (dest_dir temp_path : path) : M unit :=
  (* Find extracted directory *)
  dirs <- gets (fun m => extracted_dirs m temp_path) ;;
  match dirs with
  | [] => raise (RuntimeError "Could not find extracted directory")
  | src_dir :: _ =>
      (* Create destination directory *)
      mkdir dest_dir ;;
      (* Copy binaries *)
      copy_binaries h src_dir dest_dir
  end.

Definition download_body (h : host) (ext archive_name url : string)
    (dest_dir temp_path : path) : M unit :=
  fetch_and_extract h ext archive_name url temp_path ;;
  install h dest_dir temp_path.

Definition download_binary (h : host) (dest_dir : path) : M unit :=
  plat <- lift (get_platform (platform_system h) (platform_machine h)) ;;
  let ext := get_archive_ext h in
  let archive_name := archive_name_of plat ext in
  let url := url_of archive_name in
  print ("Downloading grit v" +:+ __version__ +:+ " for " +:+ plat +:+ "...") ;;
  with_TemporaryDirectory h (download_body h ext archive_name url dest_dir) ;;
  print ("Successfully installed grit to " +:+ str h dest_dir).

(** [name] is joined to the versioned directory as one path component. *)
Definition get_binary_path (h : host) (name : string) : M path :=
  cache_dir <- get_cache_dir h ;;
  let version_dir := cache_dir </> __version__ in
  let binary_path := version_dir </> get_binary_name h name in
  found <- gets (fun m => path_exists m binary_path) ;;
  if found then ret binary_path
  else
    (* Download binary *)
    download_binary h version_dir ;;
    found <- gets (fun m => path_exists m binary_path) ;;
    if negb found then
      raise (RuntimeError ("Binary not found after download: " +:+ str h binary_path))
    else ret binary_path.

(** [os.execv(path, args)]: the process image is replaced; what is kept of
    it is the call itself, the program path and the argument vector. *)
Record execv_call := {
  exec_path : string;
  exec_args : list string;
}.

Definition execv (path : string) (args : list string) : M execv_call :=
  ret {| exec_path := path; exec_args := args |}.

Definition main (h : host) : M execv_call :=
  binary <- get_binary_path h "grit" ;;
  execv (str h binary) ([str h binary] ++ drop 1 (argv h)).

Definition main_daemon (h : host) : M execv_call :=
  binary <- get_binary_path h "grit-daemon" ;;
  execv (str h binary) ([str h binary] ++ drop 1 (argv h)).

(** ** Names used in the statements *)

Definition version_dir_of (h : host) : path :=
  cache_base h </> "grit-cli" </> __version__.

(** The path [get_binary_path] computes for a binary. *)
Definition binary_path_of (h : host) (name : string) : path :=
  cache_base h </> "grit-cli" </> __version__ </> get_binary_name h name.










(** The URL [download_binary] requests on platform [plat]. *)
Definition download_url (h : host) (plat : string) : string :=
  url_of (archive_name_of plat (get_archive_ext h)).

(** The world inside the [with] block right after "Extract", with the
    outcome of the download and extraction steps. *)
Definition staged (h : host) (plat : string) (w : world) : result unit * world :=
  let ext := get_archive_ext h in
  let archive_name := archive_name_of plat ext in
  fetch_and_extract h ext archive_name (url_of archive_name) (mkdtemp h)
    (set_fs <[mkdtemp h := Dir]>
       (print ("Downloading grit v" +:+ __version__ +:+ " for " +:+ plat +:+ "...") w).2).

(** Permission bits of an installed binary whose source has bits [mode]. *)
Definition installed_mode (h : host) (mode : Z) : Z :=
  if bool_decide (platform_system h = "Windows") then mode
  else Z.lor mode (Z.lor (Z.lor S_IXUSR S_IXGRP) S_IXOTH).

(** Nothing is stored at or below the temporary directory. *)
Definition temp_cleared (h : host) (w : world) : Prop :=
  forall p, mkdtemp h `prefix_of` p -> fs w !! p = None.

(** The request log and the printed lines are kept. *)
Definition logs_kept (w w' : world) : Prop :=
  fetched w' = fetched w /\ stdout w' = stdout w.

(** Leaving the [with] block of [download_binary]: the temporary
    directory is removed, and on success the closing line is printed. *)
Definition leave_block (h : host) (dest_dir : path) (out : result unit * world)
  : result unit * world :=
  match out with
  | (OK _, w) =>
      print ("Successfully installed grit to " +:+ str h dest_dir)
            (set_fs (rmtree (mkdtemp h)) w)
  | (Raise e, w) => (Raise e, set_fs (rmtree (mkdtemp h)) w)
  end.

Definition raises_runtime {A} (r : result A) : bool :=
  match r with
  | Raise (RuntimeError _) => true
  | _ => false
  end.

(** Neither path lies inside the other. *)
Definition apart (p q : path) : Prop :=
  ~ p `prefix_of` q /\ ~ q `prefix_of` p.

(** ** Concrete hosts and worlds used in the examples *)

Fixpoint split_slash (acc s : string) : path :=
  match s with
  | EmptyString => if bool_decide (acc = "") then [] else [acc]
  | String c r =>
      if bool_decide (c = "/"%char)
      then (if bool_decide (acc = "") then split_slash "" r
            else acc :: split_slash "" r)
      else split_slash (acc +:+ String c EmptyString) r
  end.

Definition posix_str (p : path) : string :=
  foldr (fun c acc => "/" +:+ c +:+ acc) "" p.

(** An archive with one [grit-0.1.0] directory holding both binaries. *)
Definition good_archive : extraction :=
  {| members := [ (["grit-0.1.0"], Dir);
                  (["grit-0.1.0"; "grit"], File "G" 420);
                  (["grit-0.1.0"; "grit-daemon"], File "D" 420) ];
     complete := true |}.

(** Two top-level [grit-] directories, each with both binaries. *)
Definition twin_archive : extraction :=
  {| members := [ (["grit-0.1.0"], Dir);
                  (["grit-0.1.0"; "grit"], File "G" 420);
                  (["grit-0.1.0"; "grit-daemon"], File "D" 420);
                  (["grit-extra"], Dir);
                  (["grit-extra"; "grit"], File "G2" 420);
                  (["grit-extra"; "grit-daemon"], File "D2" 420) ];
     complete := true |}.

(** One [grit-0.1.0] directory without the daemon. *)
Definition daemonless_archive : extraction :=
  {| members := [ (["grit-0.1.0"], Dir);
                  (["grit-0.1.0"; "grit"], File "G" 420) ];
     complete := true |}.

(** No [grit-] directory at all. *)
Definition stray_archive : extraction :=
  {| members := [ (["README"], File "hello" 420) ]; complete := true |}.

Definition linux_host (net : string -> option (string * bool))
    (unpack : string -> extraction) : host :=
  {| platform_system := "Linux";
     platform_machine := "x86_64";
     environ := ∅;
     home := ["home"; "u"];
     Path := split_slash "";
     str := posix_str;
     argv := ["grit"; "status"];
     mkdtemp := ["tmp"; "tmpq1"];
     http_get := net;
     tar_extractall := unpack;
     zip_extractall := unpack |}.

Definition online : string -> option (string * bool) := fun _ => Some ("ARCHIVE", true).
Definition offline : string -> option (string * bool) := fun _ => None.

Definition linux_good : host := linux_host online (fun _ => good_archive).
Definition linux_twin : host := linux_host online (fun _ => twin_archive).
Definition linux_daemonless : host := linux_host online (fun _ => daemonless_archive).
Definition linux_stray : host := linux_host online (fun _ => stray_archive).
Definition linux_offline : host := linux_host offline (fun _ => good_archive).

Definition linux_version_dir : path := ["home"; "u"; ".cache"; "grit-cli"; "0.1.0"].

(** Nothing installed yet: only the temporary root exists. *)
Definition empty_world : world :=
  {| fs := {[ ["tmp"] := Dir ]}; stdout := []; fetched := [] |}.

(** Only the primary binary is installed (an earlier install stopped
    half-way). *)
Definition primary_only_world : world :=
  {| fs := list_to_map
             [ (["tmp"], Dir); (["home"], Dir); (["home"; "u"], Dir);
               (["home"; "u"; ".cache"], Dir);
               (["home"; "u"; ".cache"; "grit-cli"], Dir);
               (linux_version_dir, Dir);
               (linux_version_dir </> "grit", File "old" 493) ];
     stdout := []; fetched := [] |}.

(** Both binaries are installed. *)
Definition installed_world : world :=
  set_fs <[linux_version_dir </> "grit-daemon" := File "oldd" 493]> primary_only_world.

(** A host whose operating system has no mapping. *)
Definition plan9_host : host :=
  {| platform_system := "Plan9";
     platform_machine := "x86_64";
     environ := ∅;
     home := ["usr"; "glenda"];
     Path := split_slash "";
     str := posix_str;
     argv := ["grit"];
     mkdtemp := ["tmp"; "tmpq1"];
     http_get := online;
     tar_extractall := fun _ => good_archive;
     zip_extractall := fun _ => good_archive |}.




(** * Properties *)

(** ** Platform resolution *)

Example get_platform_linux_amd64 :
  get_platform "Linux" "AMD64" = OK "x86_64-unknown-linux-gnu".
Proof. reflexivity. Qed.

Lemma system_map_Some system s :
  system_map system = Some s ->
  (system = "Darwin" /\ s = "apple-darwin") \/
  (system = "Linux" /\ s = "unknown-linux-gnu") \/
  (system = "Windows" /\ s = "pc-windows-msvc").
Proof.
  unfold system_map. repeat case_bool_decide; intros [= <-]; subst; auto.
Qed.

Lemma arch_map_Some machine a :
  arch_map machine = Some a ->
  (machine = "x86_64" /\ a = "x86_64") \/
  (machine = "amd64" /\ a = "x86_64") \/
  (machine = "aarch64" /\ a = "aarch64") \/
  (machine = "arm64" /\ a = "aarch64").
Proof.
  unfold arch_map. repeat case_bool_decide; intros [= <-]; subst; auto.
Qed.

Lemma truthy_system_map system :
  truthy (system_map system) = bool_decide (is_Some (system_map system)).
Proof.
  destruct (system_map system) as [s|] eqn:E; simpl.
  - apply system_map_Some in E as [[_ ->]|[[_ ->]|[_ ->]]]; reflexivity.
  - reflexivity.
Qed.

Lemma truthy_arch_map machine :
  truthy (arch_map machine) = bool_decide (is_Some (arch_map machine)).
Proof.
  destruct (arch_map machine) as [a|] eqn:E; simpl.
  - apply arch_map_Some in E as [[_ ->]|[[_ ->]|[[_ ->]|[_ ->]]]]; reflexivity.
  - reflexivity.
Qed.

(** C2 (as amended): an (OS, architecture) pair without a mapping makes
    [get_platform] raise the built-in [RuntimeError], with the message
    "Unsupported platform: <system>-<machine in lower case>". *)
Theorem get_platform_unsupported system machine :
  system_map system = None \/ arch_map (lower machine) = None ->
  get_platform system machine =
    Raise (RuntimeError ("Unsupported platform: " +:+ system +:+ "-" +:+ lower machine))
  /\ class_name (RuntimeError ("Unsupported platform: " +:+ system +:+ "-" +:+ lower machine))
     = "RuntimeError".
Proof.
  intros H. split; [|reflexivity].
  unfold get_platform. rewrite truthy_system_map, truthy_arch_map.
  destruct H as [H|H]; rewrite H; simpl.
  - reflexivity.
  - rewrite orb_true_r. reflexivity.
Qed.

Lemma get_platform_unsupported_witness :
  get_platform "Linux" "riscv64" =
    Raise (RuntimeError "Unsupported platform: Linux-riscv64")
  /\ class_name (RuntimeError "Unsupported platform: Linux-riscv64") = "RuntimeError".
Proof. apply (get_platform_unsupported "Linux" "riscv64"). right. reflexivity. Defined.

(** C2 (as stated) fails: on FreeBSD the exception raised is the generic
    [RuntimeError], not a dedicated [UnsupportedPlatformError]. *)
Lemma get_platform_error_is_generic :
  get_platform "FreeBSD" "x86_64" =
    Raise (RuntimeError "Unsupported platform: FreeBSD-x86_64")
  /\ class_name (RuntimeError "Unsupported platform: FreeBSD-x86_64")
     <> "UnsupportedPlatformError".
Proof. split; [reflexivity | discriminate]. Qed.

(** C3 (as amended): on Darwin every architecture of the architecture
    table (in any letter case) resolves to "universal-apple-darwin". *)
Theorem get_platform_darwin_universal machine :
  is_Some (arch_map (lower machine)) ->
  get_platform "Darwin" machine = OK "universal-apple-darwin".
Proof.
  intros [a Ha]. unfold get_platform.
  rewrite truthy_system_map, truthy_arch_map, Ha. reflexivity.
Qed.

Lemma get_platform_darwin_universal_witness :
  get_platform "Darwin" "ARM64" = OK "universal-apple-darwin".
Proof. apply (get_platform_darwin_universal "ARM64"). eexists. reflexivity. Defined.

(** C3 (as stated) fails: on Darwin an architecture outside the table is
    rejected before the universal override is reached. *)
Lemma get_platform_darwin_ppc_rejected :
  get_platform "Darwin" "ppc64" =
    Raise (RuntimeError "Unsupported platform: Darwin-ppc64")
  /\ get_platform "Darwin" "ppc64" <> OK "universal-apple-darwin".
Proof. split; [reflexivity | discriminate]. Qed.

(** C6: outside Darwin every supported pair resolves to
    "<arch>-<OS suffix>": on Linux and on Windows, a machine name that
    lowers to x86_64 or amd64 gives the x86_64 triple and one that lowers to
    aarch64 or arm64 gives the aarch64 triple, with the suffix
    unknown-linux-gnu for Linux and pc-windows-msvc for Windows. *)
Theorem get_platform_non_darwin machine :
  (lower machine = "x86_64" \/ lower machine = "amd64" ->
     get_platform "Linux" machine = OK "x86_64-unknown-linux-gnu"
     /\ get_platform "Windows" machine = OK "x86_64-pc-windows-msvc")
  /\ (lower machine = "aarch64" \/ lower machine = "arm64" ->
     get_platform "Linux" machine = OK "aarch64-unknown-linux-gnu"
     /\ get_platform "Windows" machine = OK "aarch64-pc-windows-msvc").
Proof.
  unfold get_platform.
  split; intros [-> | ->]; split; reflexivity.
Qed.

Lemma get_platform_non_darwin_witness :
  (get_platform "Linux" "amd64" = OK "x86_64-unknown-linux-gnu"
   /\ get_platform "Windows" "amd64" = OK "x86_64-pc-windows-msvc")
  /\ (get_platform "Linux" "ARM64" = OK "aarch64-unknown-linux-gnu"
      /\ get_platform "Windows" "ARM64" = OK "aarch64-pc-windows-msvc").
Proof.
  split.
  - apply (proj1 (get_platform_non_darwin "amd64")). right. reflexivity.
  - apply (proj2 (get_platform_non_darwin "ARM64")). right. reflexivity.
Defined.

(** ** Paths and the file system *)

Section paths.
Implicit Types (p q d : path) (m : gmap path node).

Lemma prefixes_app p q :
  prefixes (p ++ q) = prefixes p ++ map (app p) (prefixes q).
Proof.
  induction p as [|c p IH]; simpl.
  - rewrite map_id. reflexivity.
  - rewrite IH, map_app, map_map. reflexivity.
Qed.

Lemma prefixes_snoc p c : prefixes (p </> c) = prefixes p ++ [p </> c].
Proof. unfold joinpath. rewrite prefixes_app. reflexivity. Qed.

Lemma ancestors_snoc p c : ancestors (p </> c) = prefixes p.
Proof. unfold ancestors. rewrite prefixes_snoc. apply removelast_last. Qed.

Lemma parent_snoc p c : parent (p </> c) = p.
Proof. apply removelast_last. Qed.

Lemma name_snoc p c : name (p </> c) = c.
Proof. unfold name, joinpath. rewrite last_snoc. reflexivity. Qed.

Lemma snoc_not_nil p c : p </> c <> [].
Proof. unfold joinpath. destruct p; discriminate. Qed.

Lemma elem_of_prefixes q p : q ∈ prefixes p -> q `prefix_of` p /\ q <> [].
Proof.
  revert q. induction p as [|c p IH]; simpl; intros q Hq.
  - inversion Hq.
  - apply elem_of_cons in Hq as [-> | Hq].
    + split; [|discriminate]. exists p. reflexivity.
    + apply list_elem_of_fmap in Hq as (r & -> & Hr).
      apply IH in Hr as [[k ->] _]. split; [|discriminate].
      exists k. reflexivity.
Qed.

Lemma stat_snoc m p c :
  stat m (p </> c) =
    if forallb (is_dir_at m) (prefixes p) then m !! (p </> c) else None.
Proof.
  unfold stat. rewrite ancestors_snoc.
  destruct (p </> c) eqn:E; [|reflexivity].
  exfalso. eapply snoc_not_nil, E.
Qed.

Lemma stat_Some_lookup m p n : p <> [] -> stat m p = Some n -> m !! p = Some n.
Proof.
  intros Hp. unfold stat. destruct p; [contradiction|].
  destruct (forallb _ _); [auto | discriminate].
Qed.

(** A path that resolves has directories all the way up. *)
Lemma stat_snoc_Some m p c n :
  stat m (p </> c) = Some n ->
  forallb (is_dir_at m) (prefixes p) = true /\ m !! (p </> c) = Some n.
Proof.
  rewrite stat_snoc. destruct (forallb _ _); [auto | discriminate].
Qed.

Lemma mkdir_parents_present m p :
  forallb (is_dir_at m) (prefixes p) = true -> mkdir_parents m p = OK m.
Proof.
  unfold mkdir_parents. generalize (prefixes p) as l.
  induction l as [|q l IH]; simpl; [reflexivity|].
  intros [Hq Hl]%andb_true_iff.
  unfold is_dir_at in Hq. apply bool_decide_eq_true in Hq.
  rewrite Hq. apply IH, Hl.
Qed.

Lemma rmtree_lookup d m p :
  rmtree d m !! p = if decide (d `prefix_of` p) then None else m !! p.
Proof.
  unfold rmtree. rewrite map_lookup_filter.
  destruct (m !! p) as [n|]; simpl.
  - case_decide; case_guard; simpl in *; try reflexivity; contradiction.
  - case_decide; reflexivity.
Qed.
End paths.

(** ** Cache layout *)



(** [get_binary_path], one step at a time. *)
Lemma get_binary_path_steps h name w :
  get_binary_path h name w =
    match mkdir (cache_base h </> "grit-cli") w with
    | (Raise e, w1) => (Raise e, w1)
    | (OK _, w1) =>
        if path_exists (fs w1) (binary_path_of h name)
        then (OK (binary_path_of h name), w1)
        else
          match download_binary h (version_dir_of h) w1 with
          | (Raise e, w2) => (Raise e, w2)
          | (OK _, w2) =>
              if path_exists (fs w2) (binary_path_of h name)
              then (OK (binary_path_of h name), w2)
              else (Raise (RuntimeError ("Binary not found after download: "
                                         +:+ str h (binary_path_of h name))), w2)
          end
    end.
Proof.
  unfold get_binary_path, get_cache_dir, bind, ret, gets, raise,
    binary_path_of, version_dir_of.
  destruct (mkdir _ w) as [[u|e] w1]; [|reflexivity].
  destruct (path_exists (fs w1) _); [reflexivity|].
  destruct (download_binary h _ w1) as [[u'|e] w2]; [|reflexivity].
  destruct (path_exists (fs w2) _); reflexivity.
Qed.


Lemma mkdir_cache_hit h name w :
  path_exists (fs w) (binary_path_of h name) = true ->
  mkdir (cache_base h </> "grit-cli") w = (OK tt, w).
Proof.
  intros Hex. unfold mkdir. rewrite mkdir_parents_present.
  - destruct w; reflexivity.
  - unfold path_exists in Hex. apply bool_decide_eq_true in Hex as [n Hn].
    unfold binary_path_of in Hn.
    apply stat_snoc_Some in Hn as [Hn _].
    rewrite prefixes_snoc, forallb_app in Hn.
    apply andb_true_iff in Hn as [Hn _]. exact Hn.
Qed.

Lemma get_binary_path_hit h name w :
  path_exists (fs w) (binary_path_of h name) = true ->
  get_binary_path h name w = (OK (binary_path_of h name), w).
Proof.
  intros Hex. rewrite get_binary_path_steps, (mkdir_cache_hit h name w Hex), Hex.
  reflexivity.
Qed.



(** *** Binary names that are one path component *)







(** C8: both entry points hand to the process replacement call the
    resolved binary path followed by the arguments of the invocation
    after the program name, unchanged and in order: whenever the binary of
    an entry point is resolved, that entry point reaches [execv] with this
    argument vector, and it does so without any other effect when the binary
    is already in the cache. *)
Theorem launcher_forwards_argv h w :
  (forall b w', get_binary_path h "grit" w = (OK b, w') ->
     main h w = (OK {| exec_path := str h b;
                       exec_args := str h b :: drop 1 (argv h) |}, w'))
  /\ (forall b w', get_binary_path h "grit-daemon" w = (OK b, w') ->
     main_daemon h w = (OK {| exec_path := str h b;
                              exec_args := str h b :: drop 1 (argv h) |}, w'))
  /\ (path_exists (fs w) (binary_path_of h "grit") = true ->
      main h w =
        (OK {| exec_path := str h (binary_path_of h "grit");
               exec_args := str h (binary_path_of h "grit") :: drop 1 (argv h) |}, w))
  /\ (path_exists (fs w) (binary_path_of h "grit-daemon") = true ->
      main_daemon h w =
        (OK {| exec_path := str h (binary_path_of h "grit-daemon");
               exec_args := str h (binary_path_of h "grit-daemon")
                            :: drop 1 (argv h) |}, w)).
Proof.
  unfold main, main_daemon, execv, bind, ret. repeat split.
  - intros b w' H. rewrite H. reflexivity.
  - intros b w' H. rewrite H. reflexivity.
  - intros Hex. rewrite (get_binary_path_hit h "grit" w Hex). reflexivity.
  - intros Hex. rewrite (get_binary_path_hit h "grit-daemon" w Hex). reflexivity.
Qed.

Lemma launcher_forwards_argv_witness :
  main linux_good installed_world =
    (OK {| exec_path := "/home/u/.cache/grit-cli/0.1.0/grit";
           exec_args := ["/home/u/.cache/grit-cli/0.1.0/grit"; "status"] |},
     installed_world)
  /\ main_daemon linux_good installed_world =
    (OK {| exec_path := "/home/u/.cache/grit-cli/0.1.0/grit-daemon";
           exec_args := ["/home/u/.cache/grit-cli/0.1.0/grit-daemon"; "status"] |},
     installed_world).
Proof.
  destruct (launcher_forwards_argv linux_good installed_world)
    as (_ & _ & Hmain & Hdaemon).
  split; [apply Hmain | apply Hdaemon]; vm_compute; reflexivity.
Defined.

(** ** The install pipeline *)

(** [download_binary], one stage at a time. *)
Lemma download_binary_steps h dest w :
  download_binary h dest w =
    match get_platform (platform_system h) (platform_machine h) with
    | Raise e => (Raise e, w)
    | OK plat =>
        match staged h plat w with
        | (Raise e, w2) => (Raise e, set_fs (rmtree (mkdtemp h)) w2)
        | (OK _, w2) =>
            match install h dest (mkdtemp h) w2 with
            | (Raise e, w3) => (Raise e, set_fs (rmtree (mkdtemp h)) w3)
            | (OK _, w3) =>
                print ("Successfully installed grit to " +:+ str h dest)
                      (set_fs (rmtree (mkdtemp h)) w3)
            end
        end
    end.
Proof.
  unfold download_binary, bind at 1, lift.
  destruct (get_platform _ _) as [plat|e]; [|reflexivity].
  unfold staged, bind, with_TemporaryDirectory, download_body, bind. simpl.
  destruct (fetch_and_extract _ _ _ _ _ _) as [[u|e] w2]; [|reflexivity].
  destruct (install h dest (mkdtemp h) w2) as [[u'|e] w3]; reflexivity.
Qed.

(** *** What each step may touch *)

Ltac run_cases :=
  repeat match goal with
         | |- context [match ?x with _ => _ end] => destruct x eqn:?
         end.

Lemma mkdir_logs d w r w' : mkdir d w = (r, w') -> logs_kept w w'.
Proof.
  unfold mkdir. destruct (mkdir_parents _ _); intros [= <- <-]; split; reflexivity.
Qed.

Lemma copy2_logs src dst w r w' : copy2 src dst w = (r, w') -> logs_kept w w'.
Proof.
  unfold copy2. run_cases; intros [= <- <-]; split; reflexivity.
Qed.

Lemma chmod_or_logs p bits w r w' : chmod_or p bits w = (r, w') -> logs_kept w w'.
Proof.
  unfold chmod_or. run_cases; intros [= <- <-]; split; reflexivity.
Qed.

Lemma logs_kept_trans w1 w2 w3 : logs_kept w1 w2 -> logs_kept w2 w3 -> logs_kept w1 w3.
Proof. unfold logs_kept. intros [-> ->] [-> ->]. auto. Qed.

Lemma copy_one_logs h src dest b w r w' :
  copy_one h src dest b w = (r, w') -> logs_kept w w'.
Proof.
  unfold copy_one, bind.
  destruct (copy2 _ _ w) as [[u|e] w1] eqn:E1; apply copy2_logs in E1.
  - destruct (negb _).
    + intros E2. apply chmod_or_logs in E2. eauto using logs_kept_trans.
    + intros [= <- <-]. exact E1.
  - intros [= <- <-]. exact E1.
Qed.

Lemma copy_binaries_logs h src dest w r w' :
  copy_binaries h src dest w = (r, w') -> logs_kept w w'.
Proof.
  unfold copy_binaries.
  generalize ["grit"; "grit-daemon"] as bs. intros bs. revert w r w'.
  induction bs as [|b bs IH]; simpl; intros w r w'.
  - intros [= <- <-]. split; reflexivity.
  - unfold bind.
    destruct (copy_one h src dest b w) as [[u|e] w1] eqn:E1; apply copy_one_logs in E1.
    + intros H. apply IH in H. eauto using logs_kept_trans.
    + intros [= <- <-]. exact E1.
Qed.

Lemma install_logs h dest temp w r w' :
  install h dest temp w = (r, w') -> logs_kept w w'.
Proof.
  unfold install, bind, gets, raise.
  destruct (extracted_dirs _ _) as [|src rest].
  - intros [= <- <-]. split; reflexivity.
  - destruct (mkdir dest w) as [[u|e] w1] eqn:E1; apply mkdir_logs in E1.
    + intros H. apply copy_binaries_logs in H. eauto using logs_kept_trans.
    + intros [= <- <-]. exact E1.
Qed.

Section frames.
Implicit Types (p q d : path) (m : gmap path node).

Lemma prefix_of_app_l d r : d `prefix_of` d ++ r.
Proof. exists r. reflexivity. Qed.

Lemma makedirs_frame d (qs : list path) m p :
  ~ d `prefix_of` p ->
  foldl (fun m q => match m !! q with
                    | None => <[q := Dir]> m
                    | Some _ => m
                    end) m (map (app d) qs) !! p = m !! p.
Proof.
  intros Hp. revert m. induction qs as [|q qs IH]; simpl; intros m; [reflexivity|].
  rewrite IH. destruct (m !! (d ++ q)); [reflexivity|].
  apply lookup_insert_ne. intros <-. apply Hp, prefix_of_app_l.
Qed.

Lemma write_member_frame d m e p :
  ~ d `prefix_of` p -> write_member d m e !! p = m !! p.
Proof.
  intros Hp. unfold write_member. destruct e.1 as [|c rel] eqn:E; [reflexivity|].
  rewrite lookup_insert_ne.
  - apply makedirs_frame, Hp.
  - intros <-. apply Hp, prefix_of_app_l.
Qed.

Lemma write_members_frame d ms m p :
  ~ d `prefix_of` p -> foldl (write_member d) m ms !! p = m !! p.
Proof.
  intros Hp. revert m. induction ms as [|e ms IH]; simpl; intros m; [reflexivity|].
  rewrite IH. apply write_member_frame, Hp.
Qed.
End frames.

Lemma urlretrieve_inv h url f w r w' :
  urlretrieve h url f w = (r, w') ->
  fetched w' = fetched w ++ [url] /\ stdout w' = stdout w
  /\ (forall p, p <> f -> fs w' !! p = fs w !! p).
Proof.
  unfold urlretrieve. destruct (http_get h url) as [[body [|]]|];
    intros [= <- <-]; simpl; repeat split; auto;
    intros p Hp; apply lookup_insert_ne; congruence.
Qed.

Lemma extractall_inv unpack a d w r w' :
  extractall unpack a d w = (r, w') ->
  logs_kept w w' /\ (forall p, ~ d `prefix_of` p -> fs w' !! p = fs w !! p).
Proof.
  unfold extractall, logs_kept.
  destruct (stat (fs w) a) as [[body mode|]|]; [destruct (complete _)|..];
    intros [= <- <-]; simpl; repeat split; auto;
    intros p Hp; apply write_members_frame, Hp.
Qed.

(** Download and extraction touch the temporary directory only, make one
    request and print one line. *)
Lemma staged_inv h plat w r w2 :
  staged h plat w = (r, w2) ->
  fetched w2 = fetched w ++ [download_url h plat]
  /\ (forall p, ~ mkdtemp h `prefix_of` p -> fs w2 !! p = fs w !! p).
Proof.
  unfold staged, fetch_and_extract, bind. simpl.
  destruct (urlretrieve _ _ _ _) as [[u|e] w1] eqn:E1;
    apply urlretrieve_inv in E1 as (Hf1 & _ & Hfs1); simpl in *.
  - intros H.
    assert (logs_kept w1 w2 /\
            (forall p, ~ mkdtemp h `prefix_of` p -> fs w2 !! p = fs w1 !! p)) as [[Hf2 _] Hfs2].
    { destruct (bool_decide _); eapply extractall_inv; exact H. }
    split; [rewrite Hf2; exact Hf1|].
    intros p Hp. rewrite Hfs2, Hfs1 by (try exact Hp; intros ->; apply Hp, prefix_of_app_l).
    apply lookup_insert_ne. intros <-. apply Hp. reflexivity.
  - intros [= <- <-]. split; [exact Hf1|].
    intros p Hp. rewrite Hfs1 by (intros ->; apply Hp, prefix_of_app_l).
    apply lookup_insert_ne. intros <-. apply Hp. reflexivity.
Qed.

(** *** Failures before the copy step *)

Lemma rmtree_cleared h w : temp_cleared h (set_fs (rmtree (mkdtemp h)) w).
Proof.
  intros p Hp. simpl. rewrite rmtree_lookup. rewrite decide_True by exact Hp. reflexivity.
Qed.

Lemma leave_block_cleared h dest out : temp_cleared h (leave_block h dest out).2.
Proof. destruct out as [[u|e] w]; apply rmtree_cleared. Qed.

Lemma download_binary_leave h dest w plat :
  get_platform (platform_system h) (platform_machine h) = OK plat ->
  download_binary h dest w =
    match staged h plat w with
    | (Raise e, w2) => leave_block h dest (Raise e, w2)
    | (OK _, w2) => leave_block h dest (install h dest (mkdtemp h) w2)
    end.
Proof.
  intros Hp. rewrite download_binary_steps, Hp.
  destruct (staged h plat w) as [[u|e] w2]; [|reflexivity].
  destruct (install _ _ _ _) as [[u'|e] w3]; reflexivity.
Qed.

Lemma leave_block_fetched h dest out : fetched (leave_block h dest out).2 = fetched out.2.
Proof. destruct out as [[u|e] w]; reflexivity. Qed.

(** Removing the temporary directory from a world that differs from a
    clean one only below that directory gives back the clean one. *)
Lemma rmtree_restores (h : host) (m m2 : gmap path node) :
  (forall p, mkdtemp h `prefix_of` p -> m !! p = None) ->
  (forall p, ~ mkdtemp h `prefix_of` p -> m2 !! p = m !! p) ->
  rmtree (mkdtemp h) m2 = m.
Proof.
  intros Hfresh Hframe. apply map_eq. intros p. rewrite rmtree_lookup.
  case_decide as Hp.
  - symmetry. apply Hfresh, Hp.
  - apply Hframe, Hp.
Qed.

Lemma install_no_directory h dest temp w :
  extracted_dirs (fs w) temp = [] ->
  install h dest temp w = (Raise (RuntimeError "Could not find extracted directory"), w).
Proof. intros H. unfold install, bind, gets, raise. rewrite H. reflexivity. Qed.

(** Failures stay in the temporary directory when the archive unpacks
    inside the extraction directory, the only archives an [extraction]
    describes: every zip archive ([zipfile] keeps the members inside) and
    the tar archives without absolute or ".." member names.  On a supported
    platform [download_binary] then always removes the temporary directory
    and makes exactly one request; when the download or the extraction step
    raises, or no extracted directory is found, the exception is passed on and
    the file system is left exactly as it was.  (A tar member that names a
    place outside the extraction directory is written there by [tarfile]; that
    case is outside this statement.) *)
Theorem failed_download_is_isolated h dest w plat :
  get_platform (platform_system h) (platform_machine h) = OK plat ->
  temp_cleared h w ->
  temp_cleared h (download_binary h dest w).2
  /\ fetched (download_binary h dest w).2 = fetched w ++ [download_url h plat]
  /\ (forall e w2, staged h plat w = (Raise e, w2) ->
        (download_binary h dest w).1 = Raise e
        /\ fs (download_binary h dest w).2 = fs w)
  /\ (forall w2, staged h plat w = (OK tt, w2) ->
        extracted_dirs (fs w2) (mkdtemp h) = [] ->
        (download_binary h dest w).1 =
          Raise (RuntimeError "Could not find extracted directory")
        /\ fs (download_binary h dest w).2 = fs w).
Proof.
  intros Hplat Hfresh. rewrite (download_binary_leave h dest w plat Hplat).
  destruct (staged h plat w) as [[[]|e] w2] eqn:Hst;
    pose proof (staged_inv _ _ _ _ _ Hst) as [Hfetch Hframe].
  - repeat split.
    + apply leave_block_cleared.
    + rewrite leave_block_fetched.
      destruct (install _ _ _ w2) as [r w3] eqn:Hin.
      apply install_logs in Hin as [Hf _]. simpl. rewrite Hf. exact Hfetch.
    + discriminate.
    + discriminate.
    + injection H as <-. rewrite install_no_directory by assumption. reflexivity.
    + injection H as <-. rewrite install_no_directory by assumption. simpl.
      apply rmtree_restores; assumption.
  - repeat split.
    + apply rmtree_cleared.
    + exact Hfetch.
    + injection H as <- _. reflexivity.
    + simpl. apply rmtree_restores; assumption.
    + discriminate.
    + discriminate.
Qed.

Lemma failed_download_is_isolated_witness :
  (download_binary linux_offline linux_version_dir empty_world).1 =
    Raise (URLError (download_url linux_offline "x86_64-unknown-linux-gnu"))
  /\ fs (download_binary linux_offline linux_version_dir empty_world).2 = fs empty_world
  /\ fetched (download_binary linux_offline linux_version_dir empty_world).2 =
       [download_url linux_offline "x86_64-unknown-linux-gnu"]
  /\ temp_cleared linux_offline
       (download_binary linux_offline linux_version_dir empty_world).2.
Proof.
  destruct (failed_download_is_isolated linux_offline linux_version_dir empty_world
              "x86_64-unknown-linux-gnu") as (Hclear & Hfetch & Hfail & _).
  - reflexivity.
  - intros p [k ->]. simpl. apply lookup_singleton_ne. discriminate.
  - destruct (Hfail (URLError (download_url linux_offline "x86_64-unknown-linux-gnu"))
                    (staged linux_offline "x86_64-unknown-linux-gnu" empty_world).2)
      as [Hraise Hfs]; [vm_compute; reflexivity|].
    repeat split; assumption.
Defined.

(** *** Locating the extracted directory *)

Lemma mkdir_parents_not_runtime m p : raises_runtime (mkdir_parents m p) = false.
Proof.
  unfold mkdir_parents.
  assert (H : raises_runtime (OK m : result (gmap path node)) = false) by reflexivity.
  revert H. generalize (OK m : result (gmap path node)) as acc.
  generalize (prefixes p) as l.
  induction l as [|q l IH]; simpl; intros acc Hacc; [exact Hacc|].
  apply IH. destruct acc as [m'|e]; simpl; [|exact Hacc].
  destruct (m' !! q) as [[data mode|]|]; [case_bool_decide| |]; reflexivity.
Qed.

Lemma mkdir_not_runtime d w : raises_runtime (mkdir d w).1 = false.
Proof.
  unfold mkdir. pose proof (mkdir_parents_not_runtime (fs w) d) as H.
  destruct (mkdir_parents (fs w) d) as [m|e]; [reflexivity | exact H].
Qed.

Lemma copy2_not_runtime src dst w : raises_runtime (copy2 src dst w).1 = false.
Proof. unfold copy2. run_cases; reflexivity. Qed.

Lemma chmod_or_not_runtime p bits w : raises_runtime (chmod_or p bits w).1 = false.
Proof. unfold chmod_or. run_cases; reflexivity. Qed.

Lemma copy_one_not_runtime h src dest b w :
  raises_runtime (copy_one h src dest b w).1 = false.
Proof.
  unfold copy_one, bind.
  pose proof (copy2_not_runtime (src </> get_binary_name h b)
                (dest </> get_binary_name h b) w) as H1.
  destruct (copy2 _ _ w) as [[u|e] w1]; [|exact H1].
  destruct (negb _); [apply chmod_or_not_runtime | reflexivity].
Qed.

Lemma copy_binaries_not_runtime h src dest w :
  raises_runtime (copy_binaries h src dest w).1 = false.
Proof.
  unfold copy_binaries. generalize ["grit"; "grit-daemon"] as bs. intros bs. revert w.
  induction bs as [|b bs IH]; simpl; intros w; [reflexivity|].
  unfold bind.
  pose proof (copy_one_not_runtime h src dest b w) as H1.
  destruct (copy_one h src dest b w) as [[u|e] w1]; [apply IH | exact H1].
Qed.

Lemma leave_block_result h dest out :
  raises_runtime (leave_block h dest out).1 = raises_runtime out.1.
Proof. destruct out as [[u|e] w]; reflexivity. Qed.

(** C1 (as amended): once download and extraction have succeeded,
    [download_binary] raises RuntimeError("Could not find extracted
    directory") when no top-level directory of the temporary directory has a
    name beginning with "grit-"; when there is at least one -- one or
    several -- it goes on to create the destination and copy the binaries,
    taking the first such directory in listing order as the source, and
    whatever it raises from there is not that error. *)
Theorem extracted_directory_choice h dest w plat w2 :
  get_platform (platform_system h) (platform_machine h) = OK plat ->
  staged h plat w = (OK tt, w2) ->
  (extracted_dirs (fs w2) (mkdtemp h) = [] ->
     download_binary h dest w =
       (Raise (RuntimeError "Could not find extracted directory"),
        set_fs (rmtree (mkdtemp h)) w2))
  /\ (forall src rest,
        extracted_dirs (fs w2) (mkdtemp h) = src :: rest ->
        download_binary h dest w =
          leave_block h dest ((mkdir dest ;; copy_binaries h src dest) w2)
        /\ raises_runtime (download_binary h dest w).1 = false).
Proof.
  intros Hplat Hst. rewrite (download_binary_leave h dest w plat Hplat), Hst. split.
  - intros Hnone. rewrite install_no_directory by exact Hnone. reflexivity.
  - intros src rest Hdirs.
    assert (Hin : install h dest (mkdtemp h) w2 =
                  (mkdir dest ;; copy_binaries h src dest) w2).
    { unfold install, bind at 1, gets. rewrite Hdirs. reflexivity. }
    rewrite Hin. split; [reflexivity|].
    rewrite leave_block_result. unfold bind.
    pose proof (mkdir_not_runtime dest w2) as Hm.
    destruct (mkdir dest w2) as [[u|e] w3]; [|exact Hm].
    apply copy_binaries_not_runtime.
Qed.

Lemma extracted_directory_choice_witness :
  download_binary linux_stray linux_version_dir empty_world =
    (Raise (RuntimeError "Could not find extracted directory"),
     set_fs (rmtree (mkdtemp linux_stray))
       (staged linux_stray "x86_64-unknown-linux-gnu" empty_world).2).
Proof.
  apply (extracted_directory_choice linux_stray linux_version_dir empty_world
           "x86_64-unknown-linux-gnu"
           (staged linux_stray "x86_64-unknown-linux-gnu" empty_world).2).
  - reflexivity.
  - vm_compute. reflexivity.
  - vm_compute. reflexivity.
Defined.

(** C1 (as stated) fails: with two top-level "grit-" directories in the
    archive the install goes through instead of raising. *)
Lemma two_directories_still_install :
  length (extracted_dirs
            (fs (staged linux_twin "x86_64-unknown-linux-gnu" empty_world).2)
            (mkdtemp linux_twin)) = 2%nat
  /\ (download_binary linux_twin linux_version_dir empty_world).1 = OK tt.
Proof. split; vm_compute; reflexivity. Qed.

(** *** The copy step *)

Section copying.
Implicit Types (p q d : path) (m : gmap path node).

Lemma snoc_not_prefix p c : ~ (p </> c) `prefix_of` p.
Proof.
  intros [k Hk]. apply (f_equal length) in Hk.
  unfold joinpath in Hk. rewrite !length_app in Hk. simpl in Hk. lia.
Qed.

Lemma prefix_down d p c : d `prefix_of` p -> d `prefix_of` (p </> c).
Proof. intros [k ->]. exists (k ++ [c]). unfold joinpath. rewrite app_assoc. reflexivity. Qed.

Lemma apart_child d p c : apart d p -> ~ d `prefix_of` (p </> c).
Proof.
  intros [Hdp Hpd] [k Hk]. unfold joinpath in Hk.
  destruct k as [|x k' _] using rev_ind.
  - rewrite app_nil_r in Hk. subst d. apply Hpd. exists [c]. reflexivity.
  - rewrite app_assoc in Hk. apply app_inj_tail in Hk as [-> _].
    apply Hdp. exists k'. reflexivity.
Qed.

Lemma is_dir_prefixes m p :
  p <> [] -> is_dir m p = true -> forallb (is_dir_at m) (prefixes p) = true.
Proof.
  intros Hp H. unfold is_dir in H. apply bool_decide_eq_true in H.
  destruct p as [|c p' _] using rev_ind; [contradiction|].
  fold (p' </> c) in *. apply stat_snoc_Some in H as [Ha Hl].
  rewrite prefixes_snoc, forallb_app, Ha. simpl.
  unfold is_dir_at. rewrite Hl, bool_decide_eq_true_2 by reflexivity. reflexivity.
Qed.

Lemma is_dir_lookup m p : p <> [] -> is_dir m p = true -> m !! p = Some Dir.
Proof.
  intros Hp H. apply bool_decide_eq_true in H. apply stat_Some_lookup in H; assumption.
Qed.

Lemma not_dir_lookup m p : p <> [] -> m !! p <> Some Dir -> is_dir m p = false.
Proof.
  intros Hp H. apply bool_decide_eq_false. intros Hs.
  apply stat_Some_lookup in Hs; [contradiction | assumption].
Qed.

(** What [mkdir_parents] changes: missing prefixes become directories. *)
Lemma mkdir_parents_inv m p m' q :
  mkdir_parents m p = OK m' ->
  m' !! q = m !! q \/ (q ∈ prefixes p /\ m !! q = None /\ m' !! q = Some Dir).
Proof.
  unfold mkdir_parents.
  assert (Hgen : forall l acc m1,
    foldl (mkdir_step p) acc l = OK m1 ->
    exists m0, acc = OK m0 /\
      (m1 !! q = m0 !! q \/ (q ∈ l /\ m0 !! q = None /\ m1 !! q = Some Dir))).
  { induction l as [|x l IH]; simpl; intros acc m1 H.
    - exists m1. auto.
    - apply IH in H as (mx & Hstep & Hq).
      destruct acc as [m0|e]; [|discriminate]. exists m0. split; [reflexivity|].
      simpl in Hstep. destruct (m0 !! x) as [[data mode|]|] eqn:Ex.
      + discriminate.
      + injection Hstep as <-.
        destruct Hq as [Hq | (Hin & Hn & Hd)]; [auto|].
        right. split; [apply elem_of_cons; auto | auto].
      + injection Hstep as <-.
        destruct (decide (x = q)) as [-> | Hne].
        * right. split; [apply elem_of_cons; auto|]. split; [exact Ex|].
          destruct Hq as [-> | (_ & _ & ->)]; [apply lookup_insert_eq | reflexivity].
        * rewrite lookup_insert_ne in Hq by exact Hne.
          destruct Hq as [Hq | (Hin & Hn & Hd)]; [auto|].
          right. split; [apply elem_of_cons; auto | auto]. }
  intros H. apply Hgen in H as (m0 & [= <-] & Hq). exact Hq.
Qed.

(** A file stored next to a path does not make that path resolve. *)
Lemma stat_insert_file_inv m k data mode p n :
  p <> k -> stat (<[k := File data mode]> m) p = Some n -> stat m p = Some n.
Proof.
  intros Hne. unfold stat. destruct p as [|c p]; [auto|].
  destruct (forallb _ _) eqn:Ha; [|discriminate].
  rewrite lookup_insert_ne by congruence. intros Hl.
  assert (Hb : forallb (is_dir_at m) (ancestors (c :: p)) = true).
  { apply forallb_forall. intros q Hq.
    eapply forallb_forall in Ha; [|exact Hq].
    unfold is_dir_at in *. apply bool_decide_eq_true in Ha.
    apply bool_decide_eq_true.
    destruct (decide (k = q)) as [-> | Hkq].
    - rewrite lookup_insert_eq in Ha. discriminate.
    - rewrite lookup_insert_ne in Ha by exact Hkq. exact Ha. }
  rewrite Hb. exact Hl.
Qed.
End copying.

Lemma copy2_OK src dst w w' :
  copy2 src dst w = (OK tt, w') ->
  exists data mode,
    stat (fs w) src = Some (File data mode)
    /\ w' = set_fs <[(if is_dir (fs w) dst then dst </> name src else dst)
                     := File data mode]> w.
Proof.
  unfold copy2. destruct (stat (fs w) src) as [[data mode|]|]; [|discriminate..].
  destruct (is_dir (fs w) (if is_dir (fs w) dst then _ else _)); [discriminate|].
  destruct (is_dir (fs w) (parent _)); [|discriminate].
  intros [= <-]. eauto.
Qed.

Lemma chmod_or_OK p bits w w' data mode :
  p <> [] ->
  fs w !! p = Some (File data mode) ->
  chmod_or p bits w = (OK tt, w') ->
  w' = set_fs <[p := File data (Z.lor mode bits)]> w.
Proof.
  intros Hp Hl. unfold chmod_or.
  destruct (stat (fs w) p) as [[data' mode'|]|] eqn:Hs; [| |discriminate];
    apply stat_Some_lookup in Hs; try exact Hp; rewrite Hl in Hs.
  - injection Hs as <- <-. intros [= <-]. reflexivity.
  - discriminate.
Qed.

Lemma copy_one_OK h src dest b w w' :
  fs w !! (dest </> get_binary_name h b) <> Some Dir ->
  copy_one h src dest b w = (OK tt, w') ->
  exists data mode,
    stat (fs w) (src </> get_binary_name h b) = Some (File data mode)
    /\ w' = set_fs <[dest </> get_binary_name h b
                     := File data (installed_mode h mode)]> w.
Proof.
  intros Hnd. unfold copy_one, bind.
  destruct (copy2 _ _ w) as [[[]|e] w1] eqn:E1; [|discriminate].
  apply copy2_OK in E1 as (data & mode & Hsrc & ->).
  rewrite (not_dir_lookup _ _ (snoc_not_nil _ _) Hnd).
  unfold installed_mode. destruct (bool_decide (platform_system h = "Windows")); simpl.
  - intros [= <-]. eauto.
  - intros Hch. apply chmod_or_OK with (data := data) (mode := mode) in Hch.
    + subst w'. exists data, mode. split; [exact Hsrc|].
      unfold set_fs. simpl. rewrite insert_insert_eq. reflexivity.
    + apply snoc_not_nil.
    + simpl. apply lookup_insert_eq.
Qed.

Lemma copy_binaries_rounds h src dest w :
  copy_binaries h src dest w =
    (copy_one h src dest "grit" ;; copy_one h src dest "grit-daemon") w.
Proof.
  unfold copy_binaries, for_each, bind, ret.
  destruct (copy_one h src dest "grit" w) as [[u|e] w1]; [|reflexivity].
  destruct (copy_one h src dest "grit-daemon" w1) as [[[]|e] w2]; reflexivity.
Qed.

Lemma get_binary_name_distinct h : get_binary_name h "grit" <> get_binary_name h "grit-daemon".
Proof. unfold get_binary_name. case_bool_decide; discriminate. Qed.

Lemma joinpath_inj p c1 c2 : p </> c1 = p </> c2 -> c1 = c2.
Proof. unfold joinpath. intros H. apply app_inv_head in H. congruence. Qed.

Lemma joinpath_name_ne (p q : path) c1 c2 : c1 <> c2 -> p </> c1 <> q </> c2.
Proof.
  intros Hc H. unfold joinpath in H. apply app_inj_tail in H as [_ ?]. contradiction.
Qed.

(** A successful copy step stores, at both destination paths, the content
    found at the source paths, with the installed permission bits. *)
Lemma copy_binaries_OK h src dest w w' :
  (forall b, b ∈ ["grit"; "grit-daemon"] ->
     fs w !! (dest </> get_binary_name h b) <> Some Dir) ->
  copy_binaries h src dest w = (OK tt, w') ->
  forall b, b ∈ ["grit"; "grit-daemon"] ->
    exists data mode,
      stat (fs w) (src </> get_binary_name h b) = Some (File data mode)
      /\ fs w' !! (dest </> get_binary_name h b)
         = Some (File data (installed_mode h mode)).
Proof.
  intros Hnd. rewrite copy_binaries_rounds. unfold bind.
  destruct (copy_one h src dest "grit" w) as [[[]|e] w1] eqn:E1; [|discriminate].
  apply copy_one_OK in E1 as (dg & mg & Hsg & ->);
    [|apply Hnd; set_solver].
  intros E2. apply copy_one_OK in E2 as (dd & md & Hsd & ->).
  - intros b Hb. apply elem_of_cons in Hb as [-> | Hb];
      [|apply list_elem_of_singleton in Hb as ->].
    + exists dg, mg. split; [exact Hsg|]. simpl.
      rewrite lookup_insert_ne, lookup_insert_eq; [reflexivity|].
      apply not_eq_sym, joinpath_name_ne, get_binary_name_distinct.
    + exists dd, md. split; [|simpl; apply lookup_insert_eq].
      simpl in Hsd. eapply stat_insert_file_inv; [|exact Hsd].
      apply not_eq_sym, joinpath_name_ne, get_binary_name_distinct.
  - simpl. rewrite lookup_insert_ne
      by (apply joinpath_name_ne, get_binary_name_distinct).
    apply Hnd. set_solver.
Qed.

Lemma extracted_dirs_head m temp src rest :
  extracted_dirs m temp = src :: rest -> src <> [] /\ is_dir m src = true.
Proof.
  intros H. assert (Hin : src ∈ extracted_dirs m temp) by (rewrite H; set_solver).
  unfold extracted_dirs, iterdir in Hin.
  apply list_elem_of_filter in Hin as [[Hd _] Hin].
  apply list_elem_of_filter in Hin as [[Hne _] _]. auto.
Qed.

Lemma install_OK h dest temp w2 w3 :
  (forall b, b ∈ ["grit"; "grit-daemon"] ->
     fs w2 !! (dest </> get_binary_name h b) <> Some Dir) ->
  install h dest temp w2 = (OK tt, w3) ->
  exists src rest,
    extracted_dirs (fs w2) temp = src :: rest
    /\ forall b, b ∈ ["grit"; "grit-daemon"] ->
         exists data mode,
           stat (fs w2) (src </> get_binary_name h b) = Some (File data mode)
           /\ fs w3 !! (dest </> get_binary_name h b)
              = Some (File data (installed_mode h mode)).
Proof.
  intros Hnd. unfold install, bind at 1, gets.
  destruct (extracted_dirs (fs w2) temp) as [|src rest] eqn:Hdirs; [discriminate|].
  apply extracted_dirs_head in Hdirs as [Hsrc Hdir].
  unfold bind, mkdir.
  destruct (mkdir_parents (fs w2) dest) as [m'|e] eqn:Hmk; [|discriminate].
  intros Hcopy. exists src, rest. split; [reflexivity|].
  intros b Hb.
  eapply copy_binaries_OK in Hcopy as (data & mode & Hs & Hl); [| |exact Hb].
  - exists data, mode. split; [|exact Hl].
    simpl in Hs. apply stat_snoc_Some in Hs as [_ Hs].
    rewrite stat_snoc, (is_dir_prefixes _ _ Hsrc Hdir).
    destruct (mkdir_parents_inv _ _ _ (src </> get_binary_name h b) Hmk)
      as [Heq | (_ & _ & Hd)]; congruence.
  - intros b' Hb'. simpl.
    destruct (mkdir_parents_inv _ _ _ (dest </> get_binary_name h b') Hmk)
      as [Heq | (Hin & _ & _)].
    + rewrite Heq. apply Hnd, Hb'.
    + apply elem_of_prefixes in Hin as [Hpre _].
      exfalso. eapply snoc_not_prefix, Hpre.
Qed.

(** A successful [download_binary] leaves at both destination paths what
    this download extracted, whatever files were there before. *)
Lemma download_binary_OK h dest w w' plat :
  get_platform (platform_system h) (platform_machine h) = OK plat ->
  apart (mkdtemp h) dest ->
  (forall b, b ∈ ["grit"; "grit-daemon"] ->
     fs w !! (dest </> get_binary_name h b) <> Some Dir) ->
  download_binary h dest w = (OK tt, w') ->
  exists w2 src rest,
    staged h plat w = (OK tt, w2)
    /\ extracted_dirs (fs w2) (mkdtemp h) = src :: rest
    /\ forall b, b ∈ ["grit"; "grit-daemon"] ->
         exists data mode,
           stat (fs w2) (src </> get_binary_name h b) = Some (File data mode)
           /\ fs w' !! (dest </> get_binary_name h b)
              = Some (File data (installed_mode h mode)).
Proof.
  intros Hplat Hapart Hnd. rewrite (download_binary_leave h dest w plat Hplat).
  destruct (staged h plat w) as [[[]|e] w2] eqn:Hst; [|discriminate].
  pose proof (staged_inv _ _ _ _ _ Hst) as [_ Hframe].
  destruct (install h dest (mkdtemp h) w2) as [[[]|e] w3] eqn:Hin; [|discriminate].
  intros [= <-].
  apply install_OK in Hin as (src & rest & Hdirs & Hall).
  - exists w2, src, rest. repeat split; [exact Hdirs|].
    intros b Hb. destruct (Hall b Hb) as (data & mode & Hs & Hl).
    exists data, mode. split; [exact Hs|]. simpl.
    rewrite rmtree_lookup, decide_False by (apply apart_child, Hapart). exact Hl.
  - intros b Hb. rewrite Hframe by (apply apart_child, Hapart). apply Hnd, Hb.
Qed.




(** *** A copy step that stops half-way *)

(** After a successful [mkdir_parents] the whole chain is directories. *)
Lemma mkdir_parents_made (m : gmap path node) (p : path) m' :
  mkdir_parents m p = OK m' -> forallb (is_dir_at m') (prefixes p) = true.
Proof.
  unfold mkdir_parents.
  assert (Hgen : forall l acc m1,
    foldl (mkdir_step p) acc l = OK m1 ->
    exists m0, acc = OK m0
      /\ (forall q, m0 !! q = Some Dir -> m1 !! q = Some Dir)
      /\ forallb (is_dir_at m1) l = true).
  { induction l as [|x l IH]; simpl; intros acc m1 H.
    - exists m1. auto.
    - apply IH in H as (mx & Hstep & Hkeep & Hall).
      destruct acc as [m0|e]; [|discriminate]. exists m0. split; [reflexivity|].
      simpl in Hstep. destruct (m0 !! x) as [[data mode|]|] eqn:Ex.
      + discriminate.
      + injection Hstep as <-. split; [exact Hkeep|].
        rewrite Hall, andb_true_r. apply bool_decide_eq_true, Hkeep, Ex.
      + injection Hstep as <-. split.
        * intros q Hq. apply Hkeep. destruct (decide (x = q)) as [-> | Hne].
          -- apply lookup_insert_eq.
          -- rewrite lookup_insert_ne by exact Hne. exact Hq.
        * rewrite Hall, andb_true_r. apply bool_decide_eq_true, Hkeep, lookup_insert_eq. }
  intros H. apply Hgen in H as (m0 & _ & _ & Hall). exact Hall.
Qed.

Lemma prefixes_is_dir (m : gmap path node) (p : path) :
  forallb (is_dir_at m) (prefixes p) = true -> is_dir m p = true.
Proof.
  intros H. apply bool_decide_eq_true.
  destruct p as [|c p' _] using rev_ind; [reflexivity|].
  fold (p' </> c) in *. rewrite prefixes_snoc, forallb_app in H.
  apply andb_true_iff in H as [Ha Hl]. rewrite stat_snoc, Ha.
  simpl in Hl. rewrite andb_true_r in Hl. apply bool_decide_eq_true in Hl. exact Hl.
Qed.

Lemma forallb_is_dir_at_insert (m : gmap path node) k n (l : list path) :
  k ∉ l -> forallb (is_dir_at (<[k := n]> m)) l = forallb (is_dir_at m) l.
Proof.
  induction l as [|q l IH]; simpl; intros Hk; [reflexivity|].
  apply not_elem_of_cons in Hk as [Hkq Hkl].
  rewrite IH by exact Hkl. unfold is_dir_at at 1 3.
  rewrite lookup_insert_ne by exact Hkq. reflexivity.
Qed.

Lemma child_not_in_prefixes (p : path) c : p </> c ∉ prefixes p.
Proof. intros [H _]%elem_of_prefixes. eapply snoc_not_prefix, H. Qed.

Lemma extracted_dirs_inside m temp src rest :
  extracted_dirs m temp = src :: rest -> temp `prefix_of` src.
Proof.
  intros H. assert (Hin : src ∈ extracted_dirs m temp) by (rewrite H; set_solver).
  unfold extracted_dirs, iterdir in Hin.
  apply list_elem_of_filter in Hin as [_ Hin].
  apply list_elem_of_filter in Hin as [[Hne Hpar] _].
  destruct src as [|c src' _] using rev_ind; [contradiction|].
  fold (src' </> c) in *. rewrite parent_snoc in Hpar. subst src'.
  exists [c]. reflexivity.
Qed.

(** When the extracted directory holds "grit" but not "grit-daemon",
    the install stops at the second copy, after the first binary has been
    stored at the destination and outlives the cleanup. *)
Lemma install_stops_half_way h dest w plat w2 src rest data mode :
  get_platform (platform_system h) (platform_machine h) = OK plat ->
  staged h plat w = (OK tt, w2) ->
  extracted_dirs (fs w2) (mkdtemp h) = src :: rest ->
  stat (fs w2) (src </> get_binary_name h "grit") = Some (File data mode) ->
  stat (fs w2) (src </> get_binary_name h "grit-daemon") = None ->
  apart (mkdtemp h) dest ->
  (mkdir dest w2).1 = OK tt ->
  fs w !! (dest </> get_binary_name h "grit") <> Some Dir ->
  (download_binary h dest w).1 =
    Raise (FileNotFoundError (src </> get_binary_name h "grit-daemon"))
  /\ stat (fs (download_binary h dest w).2) (dest </> get_binary_name h "grit")
     = Some (File data (installed_mode h mode)).
Proof.
  intros Hplat Hst Hdirs Hg Hd Hapart Hmk Hnd.
  pose proof (staged_inv _ _ _ _ _ Hst) as [_ Hframe].
  pose proof (extracted_dirs_head _ _ _ _ Hdirs) as [Hsrc Hsrcdir].
  pose proof (extracted_dirs_inside _ _ _ _ Hdirs) as Hinside.
  pose proof (is_dir_prefixes _ _ Hsrc Hsrcdir) as Hchain.
  set (g := get_binary_name h "grit") in *.
  set (d := get_binary_name h "grit-daemon") in *.
  assert (Hgd : g <> d) by apply get_binary_name_distinct.
  unfold mkdir in Hmk.
  destruct (mkdir_parents (fs w2) dest) as [m'|e] eqn:Hmp; [clear Hmk|discriminate].
  pose proof (mkdir_parents_made _ _ _ Hmp) as Hdest.
  assert (Hkeep : forall q n, fs w2 !! q = Some n -> m' !! q = Some n).
  { intros q n Hq. destruct (mkdir_parents_inv _ _ _ q Hmp) as [-> | (_ & Hn & _)]; congruence. }
  assert (Hout : forall q, ~ q `prefix_of` dest -> m' !! q = fs w2 !! q).
  { intros q Hq. destruct (mkdir_parents_inv _ _ _ q Hmp) as [-> | (Hin & _ & _)]; [reflexivity|].
    apply elem_of_prefixes in Hin as [Hin _]. contradiction. }
  assert (Hchain' : forallb (is_dir_at m') (prefixes src) = true).
  { apply forallb_forall. intros q Hq. eapply forallb_forall in Hchain; [|exact Hq].
    apply bool_decide_eq_true in Hchain. apply bool_decide_eq_true, Hkeep, Hchain. }
  assert (Hsrc_out : forall c, ~ (src </> c) `prefix_of` dest).
  { intros c [k Hk]. destruct Hinside as [k' ->]. apply (proj1 Hapart).
    exists (k' ++ [c] ++ k). rewrite Hk. unfold joinpath.
    rewrite <- !app_assoc. reflexivity. }
  (* first round: grit *)
  assert (Hg' : stat m' (src </> g) = Some (File data mode)).
  { rewrite stat_snoc, Hchain'. apply Hkeep.
    apply stat_snoc_Some in Hg as [_ Hg]. exact Hg. }
  assert (Hndg : m' !! (dest </> g) <> Some Dir).
  { rewrite Hout by apply snoc_not_prefix.
    rewrite Hframe by (apply apart_child, Hapart). exact Hnd. }
  assert (Hone : copy_one h src dest "grit" (set_fs (fun _ => m') w2) =
                 (OK tt, set_fs <[dest </> g := File data (installed_mode h mode)]>
                           (set_fs (fun _ => m') w2))).
  { unfold copy_one, bind, copy2. fold g. simpl. rewrite Hg'.
    rewrite (not_dir_lookup _ _ (snoc_not_nil _ _) Hndg).
    rewrite (not_dir_lookup _ _ (snoc_not_nil _ _) Hndg).
    rewrite parent_snoc, (prefixes_is_dir _ _ Hdest).
    unfold installed_mode. destruct (bool_decide (platform_system h = "Windows")); simpl.
    - reflexivity.
    - unfold chmod_or, set_fs. simpl.
      rewrite stat_snoc, forallb_is_dir_at_insert by apply child_not_in_prefixes.
      rewrite Hdest, lookup_insert_eq, insert_insert_eq. reflexivity. }
  (* second round: grit-daemon *)
  assert (Hd' : stat (<[dest </> g := File data (installed_mode h mode)]> m') (src </> d) = None).
  { destruct (stat (<[dest </> g := File data (installed_mode h mode)]> m') (src </> d))
      as [n|] eqn:E; [|reflexivity].
    apply stat_insert_file_inv in E; [|apply joinpath_name_ne; congruence].
    apply stat_snoc_Some in E as [_ E].
    rewrite Hout in E by apply Hsrc_out.
    rewrite stat_snoc, Hchain, E in Hd. discriminate. }
  assert (Hinstall : install h dest (mkdtemp h) w2 =
            (Raise (FileNotFoundError (src </> d)),
             set_fs <[dest </> g := File data (installed_mode h mode)]>
               (set_fs (fun _ => m') w2))).
  { unfold install, bind at 1, gets. rewrite Hdirs.
    unfold bind at 1, mkdir. rewrite Hmp, copy_binaries_rounds.
    unfold bind at 1. rewrite Hone.
    unfold copy_one, bind, copy2. fold d. simpl. rewrite Hd'. reflexivity. }
  rewrite (download_binary_leave h dest w plat Hplat), Hst, Hinstall. simpl.
  split; [reflexivity|].
  rewrite stat_snoc.
  assert (Hclean : forall q, ~ mkdtemp h `prefix_of` q ->
            rmtree (mkdtemp h) (<[dest </> g := File data (installed_mode h mode)]> m') !! q
            = <[dest </> g := File data (installed_mode h mode)]> m' !! q).
  { intros q Hq. rewrite rmtree_lookup, decide_False by exact Hq. reflexivity. }
  rewrite Hclean, lookup_insert_eq by (apply apart_child, Hapart).
  assert (Hchain_final : forallb (is_dir_at (rmtree (mkdtemp h)
            (<[dest </> g := File data (installed_mode h mode)]> m'))) (prefixes dest) = true).
  { apply forallb_forall. intros q Hq. apply bool_decide_eq_true.
    pose proof Hq as Hq'. apply list_elem_of_In, elem_of_prefixes in Hq' as [Hpre _].
    rewrite Hclean.
    - rewrite lookup_insert_ne.
      + eapply forallb_forall in Hdest; [|exact Hq]. apply bool_decide_eq_true in Hdest. exact Hdest.
      + intros <-. eapply snoc_not_prefix, Hpre.
    - intros Ht. apply (proj1 Hapart). etransitivity; eassumption. }
  rewrite Hchain_final. reflexivity.
Qed.

(** C10: the copy step is not atomic.  There is an archive whose single
    "grit-" directory holds "grit" but no "grit-daemon" for which
    [download_binary], started with nothing stored at or below the versioned
    cache directory, raises from the copy of "grit-daemon" after "grit" has
    been stored there: when the call has ended the versioned directory holds
    the extracted "grit", with the installed permission bits, and no
    "grit-daemon" -- a partial install at the final path. *)
Theorem copy_step_not_atomic :
  exists h dest w plat w2 src data mode,
    get_platform (platform_system h) (platform_machine h) = OK plat
    /\ (forall p, dest `prefix_of` p -> fs w !! p = None)
    /\ staged h plat w = (OK tt, w2)
    /\ extracted_dirs (fs w2) (mkdtemp h) = [src]
    /\ stat (fs w2) (src </> get_binary_name h "grit") = Some (File data mode)
    /\ stat (fs w2) (src </> get_binary_name h "grit-daemon") = None
    /\ (download_binary h dest w).1 =
         Raise (FileNotFoundError (src </> get_binary_name h "grit-daemon"))
    /\ stat (fs (download_binary h dest w).2) (dest </> get_binary_name h "grit")
       = Some (File data (installed_mode h mode))
    /\ stat (fs (download_binary h dest w).2) (dest </> get_binary_name h "grit-daemon")
       = None.
Proof.
  exists linux_daemonless, linux_version_dir, empty_world, "x86_64-unknown-linux-gnu",
    (staged linux_daemonless "x86_64-unknown-linux-gnu" empty_world).2,
    ["tmp"; "tmpq1"; "grit-0.1.0"], "G", 420%Z.
  destruct (install_stops_half_way linux_daemonless linux_version_dir empty_world
              "x86_64-unknown-linux-gnu"
              (staged linux_daemonless "x86_64-unknown-linux-gnu" empty_world).2
              ["tmp"; "tmpq1"; "grit-0.1.0"] [] "G" 420) as [Hraise Hleft];
    try (vm_compute; reflexivity).
  - split; intros [k Hk]; vm_compute in Hk; discriminate.
  - vm_compute. discriminate.
  - split; [reflexivity|].
    split; [intros p [k ->]; simpl; apply lookup_singleton_ne; discriminate|].
    split; [vm_compute; reflexivity|].
    split; [vm_compute; reflexivity|].
    split; [vm_compute; reflexivity|].
    split; [vm_compute; reflexivity|].
    split; [exact Hraise|].
    split; [exact Hleft|].
    vm_compute. reflexivity.
Qed.

(** * Further properties of the module *)

(** ** Platform resolution, continued *)

Lemma lower_ascii_idem c : lower_ascii (lower_ascii c) = lower_ascii c.
Proof. destruct c as [[] [] [] [] [] [] [] []]; reflexivity. Qed.

Lemma lower_idem s : lower (lower s) = lower s.
Proof.
  induction s as [|c s IH]; simpl; [reflexivity|].
  rewrite lower_ascii_idem, IH. reflexivity.
Qed.

(** X1: whatever the host reports, a target triple returned by
    [get_platform] is one of five: the universal Darwin one, or x86_64 or
    aarch64 for Linux or for Windows. *)
Theorem get_platform_range system machine triple :
  get_platform system machine = OK triple ->
  triple ∈ [ "universal-apple-darwin";
             "x86_64-unknown-linux-gnu"; "aarch64-unknown-linux-gnu";
             "x86_64-pc-windows-msvc"; "aarch64-pc-windows-msvc" ].
Proof.
  unfold get_platform. rewrite truthy_system_map, truthy_arch_map.
  destruct (system_map system) as [s|] eqn:Es; [|discriminate].
  destruct (arch_map (lower machine)) as [a|] eqn:Ea;
    [|rewrite orb_true_r; discriminate].
  simpl.
  apply system_map_Some in Es as [[-> ->]|[[-> ->]|[-> ->]]];
    apply arch_map_Some in Ea as [[_ ->]|[[_ ->]|[[_ ->]|[_ ->]]]];
    simpl; intros [= <-]; set_solver.
Qed.

Lemma get_platform_range_witness :
  "aarch64-pc-windows-msvc" ∈
    [ "universal-apple-darwin";
      "x86_64-unknown-linux-gnu"; "aarch64-unknown-linux-gnu";
      "x86_64-pc-windows-msvc"; "aarch64-pc-windows-msvc" ].
Proof. apply (get_platform_range "Windows" "ARM64"). reflexivity. Defined.

(** X2: the architecture is matched without regard to letter case: the
    reported machine name and its lower-case form give the same outcome,
    the same triple or the same error message. *)
Theorem get_platform_ignores_machine_case system machine :
  get_platform system (lower machine) = get_platform system machine.
Proof. unfold get_platform. rewrite lower_idem. reflexivity. Qed.

(** X3: on a supported host the archive requested is one of five release
    assets, a zip exactly for the Windows triples. *)
Theorem release_asset_url h plat :
  get_platform (platform_system h) (platform_machine h) = OK plat ->
  download_url h plat ∈
    [ "https://github.com/neul-labs/grit/releases/download/v0.1.0/grit-0.1.0-universal-apple-darwin.tar.gz";
      "https://github.com/neul-labs/grit/releases/download/v0.1.0/grit-0.1.0-x86_64-unknown-linux-gnu.tar.gz";
      "https://github.com/neul-labs/grit/releases/download/v0.1.0/grit-0.1.0-aarch64-unknown-linux-gnu.tar.gz";
      "https://github.com/neul-labs/grit/releases/download/v0.1.0/grit-0.1.0-x86_64-pc-windows-msvc.zip";
      "https://github.com/neul-labs/grit/releases/download/v0.1.0/grit-0.1.0-aarch64-pc-windows-msvc.zip" ].
Proof.
  unfold download_url, get_archive_ext, get_platform.
  rewrite truthy_system_map, truthy_arch_map.
  destruct (system_map (platform_system h)) as [s|] eqn:Es; [|discriminate].
  destruct (arch_map (lower (platform_machine h))) as [a|] eqn:Ea;
    [|rewrite orb_true_r; discriminate].
  simpl.
  apply system_map_Some in Es as [[-> ->]|[[-> ->]|[-> ->]]];
    apply arch_map_Some in Ea as [[_ ->]|[[_ ->]|[[_ ->]|[_ ->]]]];
    simpl; intros [= <-]; vm_compute; set_solver.
Qed.

Lemma release_asset_url_witness :
  download_url linux_good "x86_64-unknown-linux-gnu" ∈
    [ "https://github.com/neul-labs/grit/releases/download/v0.1.0/grit-0.1.0-universal-apple-darwin.tar.gz";
      "https://github.com/neul-labs/grit/releases/download/v0.1.0/grit-0.1.0-x86_64-unknown-linux-gnu.tar.gz";
      "https://github.com/neul-labs/grit/releases/download/v0.1.0/grit-0.1.0-aarch64-unknown-linux-gnu.tar.gz";
      "https://github.com/neul-labs/grit/releases/download/v0.1.0/grit-0.1.0-x86_64-pc-windows-msvc.zip";
      "https://github.com/neul-labs/grit/releases/download/v0.1.0/grit-0.1.0-aarch64-pc-windows-msvc.zip" ].
Proof. apply (release_asset_url linux_good "x86_64-unknown-linux-gnu"). reflexivity. Defined.

(** ** The cache directory *)




(** X4: a successful [get_cache_dir] returns <base>/grit-cli, which is
    then a directory; it keeps every node that was there, changes nothing
    off the way to that directory, requests nothing and prints nothing. *)
Theorem get_cache_dir_creates h w p w' :
  get_cache_dir h w = (OK p, w') ->
  p = cache_base h </> "grit-cli"
  /\ is_dir (fs w') p = true
  /\ (forall q n, fs w !! q = Some n -> fs w' !! q = Some n)
  /\ (forall q, q ∉ prefixes p -> fs w' !! q = fs w !! q)
  /\ logs_kept w w'.
Proof.
  unfold get_cache_dir, bind, ret, mkdir.
  destruct (mkdir_parents (fs w) _) as [m'|e] eqn:Hmk; [|discriminate].
  intros [= <- <-]. split; [reflexivity|]. simpl. repeat split.
  - apply prefixes_is_dir. eapply mkdir_parents_made, Hmk.
  - intros q n Hq.
    destruct (mkdir_parents_inv _ _ _ q Hmk) as [-> | (_ & Hn & _)]; congruence.
  - intros q Hq.
    destruct (mkdir_parents_inv _ _ _ q Hmk) as [-> | (Hin & _ & _)];
      [reflexivity | contradiction].
Qed.

Lemma get_cache_dir_creates_witness :
  ["home"; "u"; ".cache"; "grit-cli"] = cache_base linux_good </> "grit-cli"
  /\ is_dir (fs (get_cache_dir linux_good empty_world).2)
            ["home"; "u"; ".cache"; "grit-cli"] = true
  /\ (forall q n, fs empty_world !! q = Some n ->
        fs (get_cache_dir linux_good empty_world).2 !! q = Some n)
  /\ (forall q, q ∉ prefixes ["home"; "u"; ".cache"; "grit-cli"] ->
        fs (get_cache_dir linux_good empty_world).2 !! q = fs empty_world !! q)
  /\ logs_kept empty_world (get_cache_dir linux_good empty_world).2.
Proof.
  apply (get_cache_dir_creates linux_good empty_world). vm_compute. reflexivity.
Defined.

(** X5: [get_cache_dir] is idempotent: run again in the world it left, it
    returns the same directory and changes nothing. *)
Theorem get_cache_dir_idempotent h w p w' :
  get_cache_dir h w = (OK p, w') -> get_cache_dir h w' = (OK p, w').
Proof.
  unfold get_cache_dir, bind, ret, mkdir.
  destruct (mkdir_parents (fs w) _) as [m'|e] eqn:Hmk; [|discriminate].
  intros [= <- <-]. simpl.
  rewrite mkdir_parents_present by (eapply mkdir_parents_made, Hmk).
  reflexivity.
Qed.

Lemma get_cache_dir_idempotent_witness :
  get_cache_dir linux_good (get_cache_dir linux_good empty_world).2 =
    (OK ["home"; "u"; ".cache"; "grit-cli"], (get_cache_dir linux_good empty_world).2).
Proof.
  apply (get_cache_dir_idempotent linux_good empty_world). vm_compute. reflexivity.
Defined.



(** ** The install pipeline, continued *)

(** X7: on a host without a platform mapping [download_binary] stops
    at once: no line is printed, no request is made, no temporary directory
    appears.  Reached through [get_binary_path] on a cache miss, the same
    error comes out after the cache directory has been created. *)
Theorem unsupported_platform_stops_early h e :
  get_platform (platform_system h) (platform_machine h) = Raise e ->
  (forall dest w, download_binary h dest w = (Raise e, w))
  /\ (forall name w w1,
        mkdir (cache_base h </> "grit-cli") w = (OK tt, w1) ->
        path_exists (fs w1) (binary_path_of h name) = false ->
        get_binary_path h name w = (Raise e, w1)).
Proof.
  intros Hplat.
  assert (Hdl : forall dest w, download_binary h dest w = (Raise e, w)).
  { intros dest w. rewrite download_binary_steps, Hplat. reflexivity. }
  split; [exact Hdl|].
  intros name w w1 Hmk Hmiss.
  rewrite get_binary_path_steps, Hmk, Hmiss, Hdl. reflexivity.
Qed.

Lemma unsupported_platform_stops_early_witness :
  (forall dest w, download_binary plan9_host dest w =
     (Raise (RuntimeError "Unsupported platform: Plan9-x86_64"), w))
  /\ (forall name w w1,
        mkdir (cache_base plan9_host </> "grit-cli") w = (OK tt, w1) ->
        path_exists (fs w1) (binary_path_of plan9_host name) = false ->
        get_binary_path plan9_host name w =
          (Raise (RuntimeError "Unsupported platform: Plan9-x86_64"), w1)).
Proof. apply (unsupported_platform_stops_early plan9_host). reflexivity. Defined.

Lemma copy_one_frame h src dest b w r w' :
  fs w !! (dest </> get_binary_name h b) <> Some Dir ->
  copy_one h src dest b w = (r, w') ->
  forall p, p <> dest </> get_binary_name h b -> fs w' !! p = fs w !! p.
Proof.
  intros Hnd. unfold copy_one, bind, copy2.
  rewrite !(not_dir_lookup _ _ (snoc_not_nil _ _) Hnd).
  destruct (stat (fs w) (src </> _)) as [[data mode|]|];
    [|intros [= <- <-]; reflexivity..].
  destruct (is_dir (fs w) (parent _)); [|intros [= <- <-]; reflexivity].
  destruct (negb _).
  - unfold chmod_or.
    destruct (stat _ _) as [[data' mode'|]|]; intros [= <- <-] p Hp; simpl;
      rewrite ?lookup_insert_ne by congruence; reflexivity.
  - unfold ret. intros [= <- <-] p Hp. simpl. apply lookup_insert_ne. congruence.
Qed.

Lemma copy_binaries_frame h src dest w r w' :
  (forall b, b ∈ ["grit"; "grit-daemon"] ->
     fs w !! (dest </> get_binary_name h b) <> Some Dir) ->
  copy_binaries h src dest w = (r, w') ->
  forall p, p <> dest </> get_binary_name h "grit" ->
            p <> dest </> get_binary_name h "grit-daemon" ->
            fs w' !! p = fs w !! p.
Proof.
  intros Hnd. rewrite copy_binaries_rounds. unfold bind.
  assert (Hg0 : fs w !! (dest </> get_binary_name h "grit") <> Some Dir)
    by (apply Hnd; set_solver).
  assert (Hd0 : fs w !! (dest </> get_binary_name h "grit-daemon") <> Some Dir)
    by (apply Hnd; set_solver).
  destruct (copy_one h src dest "grit" w) as [[u|e] w1] eqn:E1;
    pose proof (copy_one_frame _ _ _ _ _ _ _ Hg0 E1) as F1.
  - intros E2 p Hg Hd.
    assert (Hd1 : fs w1 !! (dest </> get_binary_name h "grit-daemon") <> Some Dir).
    { rewrite F1 by (apply not_eq_sym, joinpath_name_ne, get_binary_name_distinct).
      exact Hd0. }
    rewrite (copy_one_frame _ _ _ _ _ _ _ Hd1 E2 p Hd). apply F1, Hg.
  - intros [= <- <-] p Hg _. apply F1, Hg.
Qed.

Lemma staged_stdout h plat w r w2 :
  staged h plat w = (r, w2) ->
  stdout w2 = stdout w ++ ["Downloading grit v" +:+ __version__ +:+ " for " +:+ plat +:+ "..."].
Proof.
  unfold staged, fetch_and_extract, bind. simpl.
  destruct (urlretrieve _ _ _ _) as [[u|e] w1] eqn:E1;
    apply urlretrieve_inv in E1 as (_ & Hs1 & _); simpl in *.
  - intros H.
    assert (logs_kept w1 w2) as [_ Hs2].
    { destruct (bool_decide _); eapply extractall_inv; exact H. }
    rewrite Hs2. exact Hs1.
  - intros [= <- <-]. exact Hs1.
Qed.

(** X9: on a supported platform [download_binary] prints the
    "Downloading" line whatever happens next, and the "Successfully
    installed" line after it exactly when it succeeds. *)
Theorem download_binary_prints h dest w plat :
  get_platform (platform_system h) (platform_machine h) = OK plat ->
  stdout (download_binary h dest w).2 =
    stdout w
    ++ ["Downloading grit v" +:+ __version__ +:+ " for " +:+ plat +:+ "..."]
    ++ match (download_binary h dest w).1 with
       | OK _ => ["Successfully installed grit to " +:+ str h dest]
       | Raise _ => []
       end.
Proof.
  intros Hplat. rewrite (download_binary_leave h dest w plat Hplat).
  destruct (staged h plat w) as [[u|e] w2] eqn:Hst;
    apply staged_stdout in Hst.
  - destruct (install h dest (mkdtemp h) w2) as [[u'|e] w3] eqn:Hin;
      apply install_logs in Hin as [_ Hs]; simpl; rewrite Hs, Hst.
    + rewrite <- app_assoc. reflexivity.
    + reflexivity.
  - simpl. rewrite Hst. reflexivity.
Qed.

Lemma download_binary_prints_witness :
  stdout (download_binary linux_good linux_version_dir empty_world).2 =
    stdout empty_world
    ++ ["Downloading grit v" +:+ __version__ +:+ " for "
          +:+ "x86_64-unknown-linux-gnu" +:+ "..."]
    ++ match (download_binary linux_good linux_version_dir empty_world).1 with
       | OK _ => ["Successfully installed grit to " +:+ str linux_good linux_version_dir]
       | Raise _ => []
       end.
Proof.
  apply (download_binary_prints linux_good linux_version_dir empty_world). reflexivity.
Defined.

(** *** What a successful install leaves *)

Lemma grit_listed : "grit" ∈ ["grit"; "grit-daemon"].
Proof. apply elem_of_cons. auto. Qed.

Lemma grit_daemon_listed : "grit-daemon" ∈ ["grit"; "grit-daemon"].
Proof. apply elem_of_cons. right. apply list_elem_of_singleton. reflexivity. Qed.

Lemma copy2_OK_parent src dst w w' :
  copy2 src dst w = (OK tt, w') ->
  is_dir (fs w) (parent (if is_dir (fs w) dst then dst </> name src else dst)) = true.
Proof.
  unfold copy2. destruct (stat (fs w) src) as [[data mode|]|]; [|discriminate..].
  destruct (is_dir (fs w) (if is_dir (fs w) dst then _ else _)); [discriminate|].
  destruct (is_dir (fs w) (parent _)); [reflexivity | discriminate].
Qed.

Lemma is_dir_chain (m : gmap path node) (p : path) :
  is_dir m p = true -> forallb (is_dir_at m) (prefixes p) = true.
Proof.
  destruct p as [|c p]; [reflexivity|]. apply is_dir_prefixes. discriminate.
Qed.

(** After a successful copy step the destination directory still resolves. *)
Lemma copy_binaries_OK_chain h src dest w w' :
  (forall b, b ∈ ["grit"; "grit-daemon"] ->
     fs w !! (dest </> get_binary_name h b) <> Some Dir) ->
  copy_binaries h src dest w = (OK tt, w') ->
  forallb (is_dir_at (fs w')) (prefixes dest) = true.
Proof.
  intros Hnd Hcopy.
  pose proof (copy_binaries_frame _ _ _ _ _ _ Hnd Hcopy) as Hframe.
  rewrite copy_binaries_rounds in Hcopy. unfold bind in Hcopy.
  destruct (copy_one h src dest "grit" w) as [[[]|e] w1] eqn:E1; [|discriminate].
  clear Hcopy. unfold copy_one, bind in E1.
  destruct (copy2 _ _ w) as [[[]|e] w0] eqn:E0; [|discriminate].
  apply copy2_OK_parent in E0.
  rewrite (not_dir_lookup _ _ (snoc_not_nil _ _) (Hnd "grit" ltac:(set_solver))) in E0.
  rewrite parent_snoc in E0. apply is_dir_chain in E0.
  apply forallb_forall. intros q Hq.
  eapply forallb_forall in E0; [|exact Hq].
  apply list_elem_of_In in Hq.
  unfold is_dir_at in *. rewrite Hframe; [exact E0|..];
    intros ->; eapply child_not_in_prefixes, Hq.
Qed.


(** A successful [download_binary] leaves, resolving at both destination
    paths, what this download extracted. *)
Lemma download_binary_OK_stat h dest w w' plat :
  get_platform (platform_system h) (platform_machine h) = OK plat ->
  apart (mkdtemp h) dest ->
  (forall b, b ∈ ["grit"; "grit-daemon"] ->
     fs w !! (dest </> get_binary_name h b) <> Some Dir) ->
  download_binary h dest w = (OK tt, w') ->
  exists w2 src rest,
    staged h plat w = (OK tt, w2)
    /\ extracted_dirs (fs w2) (mkdtemp h) = src :: rest
    /\ forall b, b ∈ ["grit"; "grit-daemon"] ->
         exists data mode,
           stat (fs w2) (src </> get_binary_name h b) = Some (File data mode)
           /\ stat (fs w') (dest </> get_binary_name h b)
              = Some (File data (installed_mode h mode)).
Proof.
  intros Hplat Hapart Hnd Hdl.
  destruct (download_binary_OK _ _ _ _ _ Hplat Hapart Hnd Hdl)
    as (w2 & src & rest & Hst & Hdirs & Hall).
  exists w2, src, rest. split; [exact Hst|]. split; [exact Hdirs|].
  intros b Hb. destruct (Hall b Hb) as (data & mode & Hsrc & Hl).
  exists data, mode. split; [exact Hsrc|].
  rewrite stat_snoc, Hl.
  rewrite (download_binary_leave h dest w plat Hplat), Hst in Hdl.
  pose proof (staged_inv _ _ _ _ _ Hst) as [_ Hframe].
  destruct (install h dest (mkdtemp h) w2) as [[[]|e] w3] eqn:Hin; [|discriminate].
  injection Hdl as <-. simpl.
  assert (Hchain : forallb (is_dir_at (fs w3)) (prefixes dest) = true).
  { unfold install, bind at 1, gets in Hin. rewrite Hdirs in Hin.
    unfold bind, mkdir in Hin.
    destruct (mkdir_parents (fs w2) dest) as [m'|e] eqn:Hmk; [|discriminate].
    eapply copy_binaries_OK_chain; [|exact Hin].
    intros b' Hb'. simpl.
    destruct (mkdir_parents_inv _ _ _ (dest </> get_binary_name h b') Hmk)
      as [-> | (Hq & _ & _)].
    - rewrite Hframe by (apply apart_child, Hapart). apply Hnd, Hb'.
    - exfalso. eapply child_not_in_prefixes, Hq. }
  assert (Hfinal : forallb (is_dir_at (rmtree (mkdtemp h) (fs w3))) (prefixes dest) = true).
  { apply forallb_forall. intros q Hq. eapply forallb_forall in Hchain; [|exact Hq].
    apply list_elem_of_In, elem_of_prefixes in Hq as [Hq _].
    unfold is_dir_at in *. rewrite rmtree_lookup, decide_False; [exact Hchain|].
    intros Ht. apply (proj1 Hapart). etransitivity; eassumption. }
  rewrite Hfinal. reflexivity.
Qed.



(** *** One install, two entry points *)

(** X12: one install serves both entry points.  After [get_binary_path]
    has succeeded through a download, asking for either binary in the world
    it left is a cache hit: the path comes back and nothing changes. *)
Theorem one_install_serves_both h name w w1 plat p w' :
  get_platform (platform_system h) (platform_machine h) = OK plat ->
  mkdir (cache_base h </> "grit-cli") w = (OK tt, w1) ->
  path_exists (fs w1) (binary_path_of h name) = false ->
  apart (mkdtemp h) (version_dir_of h) ->
  (forall b, b ∈ ["grit"; "grit-daemon"] ->
     fs w1 !! (version_dir_of h </> get_binary_name h b) <> Some Dir) ->
  get_binary_path h name w = (OK p, w') ->
  forall b, b ∈ ["grit"; "grit-daemon"] ->
    get_binary_path h b w' = (OK (binary_path_of h b), w').
Proof.
  intros Hplat Hmk Hmiss Hapart Hnd Hok b Hb.
  rewrite get_binary_path_steps, Hmk, Hmiss in Hok.
  destruct (download_binary h (version_dir_of h) w1) as [[[]|e] w2] eqn:Hdl;
    [|discriminate].
  assert (w' = w2) as ->.
  { destruct (path_exists (fs w2) _); [congruence | discriminate]. }
  destruct (download_binary_OK_stat _ _ _ _ _ Hplat Hapart Hnd Hdl)
    as (w0 & src & rest & _ & _ & Hall).
  destruct (Hall b Hb) as (data & mode & _ & Hs).
  apply get_binary_path_hit, bool_decide_eq_true.
  unfold binary_path_of. fold (version_dir_of h). eauto.
Qed.

Lemma one_install_serves_both_witness :
  get_binary_path linux_good "grit-daemon"
    (get_binary_path linux_good "grit" empty_world).2 =
    (OK (binary_path_of linux_good "grit-daemon"),
     (get_binary_path linux_good "grit" empty_world).2).
Proof.
  apply (one_install_serves_both linux_good "grit" empty_world
           (get_cache_dir linux_good empty_world).2 "x86_64-unknown-linux-gnu"
           (binary_path_of linux_good "grit"));
    try (vm_compute; reflexivity).
  - split; intros [k Hk]; vm_compute in Hk; discriminate.
  - intros b Hb.
    apply elem_of_cons in Hb as [-> | Hb];
      [|apply list_elem_of_singleton in Hb as ->]; vm_compute; discriminate.
  - exact grit_daemon_listed.
Defined.

(** *** An archive without the primary binary *)




